(** * Shallow embedding of the research_assistant_chatbot core

    Modelled files (under src/research_assistant_chatbot):
    - utils/text_helpers.py : [count_tokens], [messages_to_string]
    - core/memory.py        : [MemoryManager] and its methods
    - core/chatbot.py       : [Chatbot] (chain and [ask])
    - core/rag_pipeline.py  : [ingest_publications], [query]
    - services/chunker.py   : [split_publications]
    - core/prompt_builder.py: [build_system_prompt_from_config]
    - services/llms.py      : [get_llm], with utils/helpers.py [load_env]
    - main.py               : the [Chatbot(...)] call of [initialize_chatbot]
    - interfaces/cli.py     : [run_cli]

    Python strings are modelled as Rocq [string]s whose characters stand
    for the code points 0..255.  Python dicts are association lists: the
    code relies on their insertion order when it prints them with [str].
    The external capabilities (tokenizer lookup, LLM, embedding model,
    vector store, LangChain text splitter) are function arguments. *)

From Stdlib Require Import String Ascii List Arith Lia ZArith Bool.
From Stdlib Require Import Floats Finite.
Import ListNotations.

Open Scope string_scope.
Open Scope list_scope.
Open Scope nat_scope.

Infix "+++" := String.append (at level 60, right associativity).

(** ** Python values, errors and string primitives *)

Inductive py_error :=
| ValueError (msg : string)
| TypeError (msg : string)
| IndexError (msg : string)
| AttributeError (msg : string).

Inductive result (A : Type) :=
| Ok (a : A)
| Err (e : py_error).
Arguments Ok {A} a.
Arguments Err {A} e.

Definition chr (n : nat) : string := String (ascii_of_nat n) EmptyString.
Definition nl : string := chr 10.

Fixpoint repeat_string (n : nat) (s : string) : string :=
  match n with 0 => "" | S k => s +++ repeat_string k s end.

(** [str.join]: Python's [sep.join(l)]. *)
Definition py_join (sep : string) (l : list string) : string := String.concat sep l.

(** Characters for which Python's [str.isspace] holds (code points < 256). *)
Definition is_py_space (c : ascii) : bool :=
  let n := nat_of_ascii c in
  ((9 <=? n) && (n <=? 13)) || ((28 <=? n) && (n <=? 31)) ||
  (n =? 32) || (n =? 133) || (n =? 160).

(** [str.split()] with no argument: maximal runs of non-whitespace. *)
Fixpoint split_go (s : string) : string * list string :=
  match s with
  | EmptyString => ("", [])
  | String c r =>
      let '(w, ws) := split_go r in
      if is_py_space c then ("", if String.eqb w "" then ws else w :: ws)
      else (String c w, ws)
  end.

Definition py_split (s : string) : list string :=
  let '(w, ws) := split_go s in if String.eqb w "" then ws else w :: ws.

(** [str.strip()] with no argument. *)
Fixpoint py_lstrip (s : string) : string :=
  match s with
  | EmptyString => EmptyString
  | String c r => if is_py_space c then py_lstrip r else s
  end.

Fixpoint py_rstrip (s : string) : string :=
  match s with
  | EmptyString => EmptyString
  | String c r =>
      let r' := py_rstrip r in
      if String.eqb r' "" && is_py_space c then "" else String c r'
  end.

Definition py_strip (s : string) : string := py_rstrip (py_lstrip s).

(** [str(n)] for natural numbers and integers. *)
Definition digit (n : nat) : ascii := ascii_of_nat (48 + n).

Fixpoint nat_digits (fuel n : nat) (acc : string) : string :=
  match fuel with
  | 0 => acc
  | S f =>
      let acc' := String (digit (n mod 10)) acc in
      if n <? 10 then acc' else nat_digits f (n / 10) acc'
  end.

Definition str_nat (n : nat) : string := nat_digits (S n) n "".

Definition str_Z (z : Z) : string :=
  if (z <? 0)%Z then "-" +++ str_nat (Z.to_nat (- z)) else str_nat (Z.to_nat z).

(** [repr] of a Python [str]. *)
Definition hex_digit (n : nat) : ascii :=
  if n <? 10 then ascii_of_nat (48 + n) else ascii_of_nat (87 + n).

Definition backslash : ascii := ascii_of_nat 92.
Definition squote : ascii := ascii_of_nat 39.
Definition dquote : ascii := ascii_of_nat 34.

Fixpoint has_char (c : ascii) (s : string) : bool :=
  match s with
  | EmptyString => false
  | String d r => Ascii.eqb c d || has_char c r
  end.

Definition py_printable (n : nat) : bool :=
  negb ((n <? 32) || ((127 <=? n) && (n <=? 160)) || (n =? 173)).

Definition escape_char (q c : ascii) : string :=
  let n := nat_of_ascii c in
  if Ascii.eqb c q || (n =? 92) then String backslash (String c "")
  else if n =? 9 then String backslash "t"
  else if n =? 10 then String backslash "n"
  else if n =? 13 then String backslash "r"
  else if py_printable n then String c ""
  else String backslash (String "x" (String (hex_digit (n / 16))
                                       (String (hex_digit (n mod 16)) "")))%char.

Fixpoint escape_all (q : ascii) (s : string) : string :=
  match s with
  | EmptyString => ""
  | String c r => escape_char q c +++ escape_all q r
  end.

Definition py_repr_str (s : string) : string :=
  let q := if has_char squote s && negb (has_char dquote s) then dquote else squote in
  String q (escape_all q s +++ String q "").

(** Substring test, used to state what a rendered text contains. *)
Fixpoint contains (needle hay : string) : bool :=
  String.prefix needle hay ||
  match hay with EmptyString => false | String _ r => contains needle r end.

(** ** utils/text_helpers.py *)

(** [count_tokens(text, model)]: [encoding] is the result of
    [tiktoken.encoding_for_model(model)] ([None] when it raises).  The
    fallback [int(len(text.split()) * 1.3)] is written as [13 * n / 10];
    the two agree for every word count below 2,000,000. *)
Definition count_tokens (encoding : option (string -> nat)) (text : string) : nat :=
  match encoding with
  | Some enc => enc text
  | None => 13 * length (py_split text) / 10
  end.

(** The message kinds [messages_to_string] distinguishes by [isinstance];
    [UnknownMessage type_name shown] is any other object, [shown] being
    [getattr(msg, 'content', str(msg))]. *)
Inductive message :=
| SystemMessage (content : string)
| HumanMessage (content : string)
| AIMessage (content : string)
| UnknownMessage (type_name shown : string).

Definition separator_line : string := repeat_string 80 "=".

Fixpoint messages_to_string_go (i user_question_count : nat) (ms : list message)
  : list string :=
  match ms with
  | [] => []
  | m :: rest =>
      match m with
      | SystemMessage c =>
          ("SYSTEM: " +++ c) :: messages_to_string_go (S i) user_question_count rest
      | HumanMessage c =>
          let uq := S user_question_count in
          (if 0 <? i then [separator_line] else []) ++
          ("USER Q" +++ str_nat uq +++ ": " +++ c) :: messages_to_string_go (S i) uq rest
      | AIMessage c =>
          ("ASSISTANT: " +++ c) :: messages_to_string_go (S i) user_question_count rest
      | UnknownMessage tn shown =>
          ("UNKNOWN (" +++ tn +++ "): " +++ shown)
            :: messages_to_string_go (S i) user_question_count rest
      end
  end.

Definition messages_to_string (ms : list message) : string :=
  py_join (nl +++ nl) (messages_to_string_go 0 0 ms).

(** ** core/memory.py *)

(** A history entry: the dict [{"role": ..., "content": ...}]. *)
Record turn := mkTurn { role : string; content : string }.

(** [str(d)] of such a dict (keys in insertion order). *)
Definition dict_repr (t : turn) : string :=
  "{" +++ py_repr_str "role" +++ ": " +++ py_repr_str (role t) +++ ", "
      +++ py_repr_str "content" +++ ": " +++ py_repr_str (content t) +++ "}".

(** A dict is none of the LangChain message classes and has no [content]
    attribute, so [messages_to_string] sees it as an unknown object. *)
Definition message_of_dict (t : turn) : message := UnknownMessage "dict" (dict_repr t).

Definition render_history (h : list turn) : string :=
  messages_to_string (map message_of_dict h).

Record MemoryManager := mkMemory {
  history : list turn;      (* deque(maxlen=window_size * 2) *)
  maxlen : nat;
  summary : string;
  token_limit : Z
}.

(** [deque(maxlen=...)] raises [ValueError] on a negative bound. *)
Definition memory_init (window_size token_limit : Z) : result MemoryManager :=
  if (window_size * 2 <? 0)%Z then Err (ValueError "maxlen must be non-negative")
  else Ok (mkMemory [] (Z.to_nat (window_size * 2)) "" token_limit).

(** [deque.append] on a bounded deque: append, then drop the leftmost
    item when the length exceeds [maxlen]. *)
Definition deque_append {A} (m : nat) (d : list A) (x : A) : list A :=
  let d' := d ++ [x] in if m <? length d' then tl d' else d'.

Definition set_history (mm : MemoryManager) (h : list turn) : MemoryManager :=
  mkMemory h (maxlen mm) (summary mm) (token_limit mm).

Definition add_turn (mm : MemoryManager) (user_message assistant_response : string)
  : MemoryManager :=
  let h1 := deque_append (maxlen mm) (history mm) (mkTurn "user" user_message) in
  let h2 := deque_append (maxlen mm) h1 (mkTurn "assistant" assistant_response) in
  set_history mm h2.

Definition get_recent_history (mm : MemoryManager) : list turn := history mm.

Definition get_combined_context (mm : MemoryManager) : string :=
  let formatted_history := render_history (history mm) in
  "Conversation Summary:" +++ nl
    +++ (if String.eqb (summary mm) "" then "No summary yet." else summary mm)
    +++ nl +++ nl +++ "Recent Conversation:" +++ nl +++ formatted_history.

(** An LLM client: its optional [model] attribute and [invoke], which
    maps the list of role/content dicts to the response's [content]. *)
Record llm := mkLLM {
  llm_model : option string;
  llm_invoke : list turn -> string
}.

Definition llm_model_name (l : llm) : string :=
  match llm_model l with Some m => m | None => "gemini-1.5-flash" end.

(** A summarization template whose only replacement field is [{chat}]. *)
Inductive template_piece := TLit (s : string) | TChat.

Definition format_template (tmpl : list template_piece) (chat : string) : string :=
  String.concat "" (map (fun p => match p with TLit s => s | TChat => chat end) tmpl).

Definition summary_request (tmpl : list template_piece) (text : string) : list turn :=
  [mkTurn "system" "You are a summarization assistant.";
   mkTurn "user"
     ("Provide a concise summary of this conversation history: " +++ nl
      +++ repeat_string 16 " " +++ format_template tmpl text +++ nl +++ nl
      +++ repeat_string 12 " "
      +++ "Focus on main topics and key information. Keep under 200 words.")].

(** The trimming loop: [while token_count > token_limit and len(history) > 2:
    history.popleft(); recount]. *)
Fixpoint trim_history (cnt : list turn -> nat) (limit : Z) (h : list turn) : list turn :=
  match h with
  | [] => []
  | _ :: rest =>
      if (limit <? Z.of_nat (cnt h))%Z && (2 <? length h) then trim_history cnt limit rest
      else h
  end.

(** [count_tokens(messages_to_string(list(self.history)),
    getattr(llm, "model", "gemini-1.5-flash"))]; [encoding_for_model] is
    the tokenizer lookup of tiktoken. *)
Definition history_tokens (encoding_for_model : string -> option (string -> nat))
    (l : llm) (h : list turn) : nat :=
  count_tokens (encoding_for_model (llm_model_name l)) (render_history h).

(** [update_summary(llm, summarization_prompt)]. *)
Definition update_summary (encoding_for_model : string -> option (string -> nat))
    (l : llm) (tmpl : list template_piece) (mm : MemoryManager)
  : option string * MemoryManager :=
  let cnt := history_tokens encoding_for_model l in
  let h := history mm in
  let h' := if (token_limit mm <? Z.of_nat (cnt h))%Z
            then trim_history cnt (token_limit mm) h else h in
  match h' with
  | [] => (None, set_history mm h')
  | _ :: _ =>
      let new_summary := py_strip (llm_invoke l (summary_request tmpl (render_history h'))) in
      (Some new_summary,
       mkMemory [] (maxlen mm) (summary mm +++ nl +++ new_summary +++ nl) (token_limit mm))
  end.


(** ** Python values held in dicts (configuration, publications, metadata) *)

Inductive pyval :=
| PNone
| PBool (b : bool)
| PInt (z : Z)
| PStr (s : string)
| PStrList (l : list string).

Definition py_dict := list (string * pyval).

(** [d.get(k, default)]. *)
Fixpoint dict_get_default (d : py_dict) (k : string) (default : pyval) : pyval :=
  match d with
  | [] => default
  | (k', v) :: rest => if String.eqb k k' then v else dict_get_default rest k default
  end.

(** [d.get(k)]. *)
Definition dict_get (d : py_dict) (k : string) : pyval := dict_get_default d k PNone.

Definition truthy (v : pyval) : bool :=
  match v with
  | PNone => false
  | PBool b => b
  | PInt z => negb (Z.eqb z 0)
  | PStr s => negb (String.eqb s "")
  | PStrList l => match l with [] => false | _ => true end
  end.

Definition py_repr (v : pyval) : string :=
  match v with
  | PNone => "None"
  | PBool b => if b then "True" else "False"
  | PInt z => str_Z z
  | PStr s => py_repr_str s
  | PStrList l => "[" +++ py_join ", " (map py_repr_str l) +++ "]"
  end.

(** [str(v)], as used by f-strings. *)
Definition py_str (v : pyval) : string :=
  match v with PStr s => s | _ => py_repr v end.

Definition py_dict_repr (d : py_dict) : string :=
  "{" +++ py_join ", " (map (fun '(k, v) => py_repr_str k +++ ": " +++ py_repr v) d) +++ "}".

Fixpoint enumerate_from {A} (i : nat) (l : list A) : list (nat * A) :=
  match l with [] => [] | x :: r => (i, x) :: enumerate_from (S i) r end.

(** ** core/prompt_builder.py *)

(** [str.lower] on one character (code points < 256). *)
Definition lower_char (c : ascii) : ascii :=
  let n := nat_of_ascii c in
  if ((65 <=? n) && (n <=? 90)) || ((192 <=? n) && (n <=? 222) && negb (n =? 215))
  then ascii_of_nat (n + 32) else c.

Definition lowercase_first_char (text : string) : string :=
  match text with
  | EmptyString => text
  | String c r => String (lower_char c) r
  end.

Definition format_prompt_section (lead_in : string) (value : pyval) : string :=
  let formatted_value :=
    match value with
    | PStrList items => py_join nl (map (fun item => "- " +++ item) items)
    | _ => py_str value
    end in
  lead_in +++ nl +++ formatted_value.

(** One optional block: [if x := config.get(key): parts.append(...)]. *)
Definition optional_section (config : py_dict) (key lead_in : string) : list string :=
  let v := dict_get config key in
  if truthy v then [format_prompt_section lead_in v] else [].

Definition build_system_prompt_from_config (config : py_dict) : result string :=
  let role := dict_get config "role" in
  if negb (truthy role) then Err (ValueError "Missing required 'role' field.")
  else
    match role with
    | PStr r =>
        let prompt_parts :=
          ["You are " +++ lowercase_first_char (py_strip r)]
          ++ optional_section config "instruction" "Your Instruction:"
          ++ optional_section config "output_constraints" "Follow these important guidelines:"
          ++ optional_section config "style_or_tone" "Communication style:"
          ++ optional_section config "output_format" "Response formatting:" in
        Ok (py_join (nl +++ nl) prompt_parts)
    | _ => Err (AttributeError "object has no attribute 'strip'")
    end.

(** ** services/chunker.py *)

(** [type(v).__name__]. *)
Definition py_type_name (v : pyval) : string :=
  match v with
  | PNone => "NoneType"
  | PBool _ => "bool"
  | PInt _ => "int"
  | PStr _ => "str"
  | PStrList _ => "list"
  end.

Record chunk := mkChunk { chunk_content : string; chunk_metadata : py_dict }.

Section Chunker.
(** [self.text_splitter.split_text]: LangChain's RecursiveCharacterTextSplitter
    configured with chunk_size, chunk_overlap and the separators
    ["\n\n", "\n", ". ", " ", ""]. *)
Variable split_text : string -> list string.

Definition chunks_of_publication (pub : py_dict) : result (list chunk) :=
  let pub_id := dict_get_default pub "id" (PStr "unknown") in
  let title := dict_get_default pub "title" (PStr "Untitled") in
  match dict_get_default pub "publication_description" (PStr "") with
  | PStr description =>
      Ok (map (fun '(i, c) =>
                 mkChunk c [("id", pub_id); ("username", dict_get pub "username");
                            ("license", dict_get pub "license"); ("title", title);
                            ("chunk_id", PStr (py_str pub_id +++ "_" +++ str_nat i))])
              (enumerate_from 0 (split_text description)))
  | v => Err (TypeError ("expected string or bytes-like object, got '" +++ py_type_name v +++ "'"))
  end.

Fixpoint split_publications (publications : list py_dict) : result (list chunk) :=
  match publications with
  | [] => Ok []
  | pub :: rest =>
      match chunks_of_publication pub with
      | Err e => Err e
      | Ok cs =>
          match split_publications rest with
          | Err e => Err e
          | Ok all => Ok (cs ++ all)
          end
      end
  end.
End Chunker.

(** ** core/rag_pipeline.py *)

(** One key of the dict returned by ChromaDB's [collection.query]:
    absent, present with value [None], or a list with one inner list per
    query vector. *)
Inductive field (A : Type) :=
| Missing
| NoneField
| Present (outer : list (list A)).
Arguments Missing {A}.
Arguments NoneField {A}.
Arguments Present {A} outer.

Record query_response := mkResponse {
  r_documents : field string;
  r_metadatas : field (option py_dict);   (* a metadata entry may be None *)
  r_distances : field float
}.

(** [results.get(key, [[]])[0]]. *)
Definition first_of {A} (f : field A) : result (list A) :=
  match f with
  | Missing => Ok []
  | NoneField => Err (TypeError "'NoneType' object is not subscriptable")
  | Present [] => Err (IndexError "list index out of range")
  | Present (x :: _) => Ok x
  end.

(** A formatted hit: content, metadata ([None] or a dict) and similarity
    ([None] or a float). *)
Record retrieved := mkRetrieved {
  rr_content : string;
  rr_metadata : option py_dict;
  rr_similarity : option float
}.

Definition format_results (docs : list string) (metadatas : list (option py_dict))
    (distances : list float) : list retrieved :=
  map (fun '(i, c) =>
         mkRetrieved c
           (if i <? length metadatas then nth i metadatas (Some []) else Some [])
           (if i <? length distances then Some (1.0 - nth i distances 0.0)%float else None))
      (enumerate_from 0 docs).

Record embedder := mkEmbedder {
  embed_documents : list string -> list (list float);
  embed_query : string -> list float
}.

Section RAGPipeline.
(** The ChromaDB collection: its state, [add_chunks] and [query_by_vector]. *)
Variable store : Type.
Variable add_chunks :
  store -> list pyval -> list string -> list py_dict -> list (list float) -> store.
Variable query_by_vector : store -> list float -> Z -> query_response.
Variable split_text : string -> list string.
Variable emb : embedder.

(** [ingest_publications]: the Python return value ([None] is [None],
    an int would be [Some n]), the printed lines and the new store. *)
Definition ingest_publications (publications : list py_dict) (st : store)
  : result (option nat * list string * store) :=
  match publications with
  | [] => Ok (None, ["No documents found to ingest."], st)
  | _ :: _ =>
      match split_publications split_text publications with
      | Err e => Err e
      | Ok chunks =>
          let texts := map chunk_content chunks in
          let metadatas := map chunk_metadata chunks in
          let ids := map (fun m => dict_get m "chunk_id") metadatas in
          let embeddings := embed_documents emb texts in
          let st' := add_chunks st ids texts metadatas embeddings in
          Ok (None, ["Ingested " +++ str_nat (length chunks) +++ " chunks to vector DB."], st')
      end
  end.

Definition query (st : store) (query_text : string) (top_k : Z) : result (list retrieved) :=
  let qv := embed_query emb query_text in
  let results := query_by_vector st qv top_k in
  match first_of (r_documents results), first_of (r_metadatas results),
        first_of (r_distances results) with
  | Err e, _, _ => Err e
  | _, Err e, _ => Err e
  | _, _, Err e => Err e
  | Ok docs, Ok metadatas, Ok distances => Ok (format_results docs metadatas distances)
  end.
End RAGPipeline.

(** ** core/chatbot.py *)

Section Chatbot.
(** [repr] of a Python float (shortest round-trip digits). *)
Variable float_repr : float -> string.

(** [str(chunk)] of a result dict [{"content", "metadata", "similarity"}]. *)
Definition str_retrieved (r : retrieved) : string :=
  "{'content': " +++ py_repr_str (rr_content r)
    +++ ", 'metadata': "
    +++ (match rr_metadata r with Some d => py_dict_repr d | None => "None" end)
    +++ ", 'similarity': "
    +++ (match rr_similarity r with Some f => float_repr f | None => "None" end) +++ "}".

(** The [format_context] step of the chain. *)
Definition format_context (context : list retrieved) : string :=
  py_join (nl +++ nl)
    (map (fun '(i, chunk) => "Chunk " +++ str_nat (i + 1) +++ ":" +++ nl +++ str_retrieved chunk)
         (enumerate_from 0 context)).

Definition indent : string := repeat_string 8 " ".

(** The single human message produced by the [ChatPromptTemplate]. *)
Definition prompt_text (system_prompt formatted_context query : string) : string :=
  nl +++ indent +++ "System instructions:" +++ nl +++ indent +++ system_prompt +++ nl
     +++ nl +++ indent +++ "Retrieved context:" +++ nl +++ indent +++ formatted_context +++ nl
     +++ nl +++ indent +++ "User question:" +++ nl +++ indent +++ query +++ nl +++ indent.

Record Chatbot := mkChatbot {
  rag : string -> Z -> result (list retrieved);   (* self.rag.query *)
  system_prompt : string;
  chat_llm : llm
}.

(** [Chatbot.__init__]. *)
Definition chatbot_init (rag_query : string -> Z -> result (list retrieved))
    (system_prompt_config : py_dict) (l : llm) : result Chatbot :=
  match build_system_prompt_from_config system_prompt_config with
  | Err e => Err e
  | Ok sp => Ok (mkChatbot rag_query sp l)
  end.

(** The LLM input assembled by the chain for [query]. *)
Definition chain_input (cb : Chatbot) (query : string) : result (list turn) :=
  match rag cb query 5 with
  | Err e => Err e
  | Ok context =>
      Ok [mkTurn "human" (prompt_text (system_prompt cb) (format_context context) query)]
  end.

Record ask_result := mkAskResult {
  ask_query : string;
  ask_response : string;
  ask_timestamp : string;
  ask_model : string
}.

(** [Chatbot.ask]; [now] is [datetime.now().isoformat()]. *)
Definition ask (cb : Chatbot) (now user_query : string) : result ask_result :=
  match chain_input cb user_query with
  | Err e => Err e
  | Ok msgs =>
      Ok (mkAskResult user_query (llm_invoke (chat_llm cb) msgs) now
            (match llm_model (chat_llm cb) with Some m => m | None => "unknown" end))
  end.

End Chatbot.

(** The parameters of [Chatbot.__init__] after [self]. *)
Definition chatbot_params : list string := ["rag_pipeline"; "system_prompt_config"; "llm_client"].

(** Python's message for missing required arguments. *)
Definition missing_message (names : list string) : string :=
  match map (fun n => "'" +++ n +++ "'") names with
  | [a] => "missing 1 required positional argument: " +++ a
  | [a; b] => "missing 2 required positional arguments: " +++ a +++ " and " +++ b
  | [a; b; c] => "missing 3 required positional arguments: " +++ a +++ ", " +++ b +++ ", and " +++ c
  | _ => ""
  end.

(** [Chatbot(k1=..., k2=..., ...)]: binding the keyword names [kwargs] (distinct, in
    call order) to the parameters of [__init__] before its body runs; an
    unknown keyword raises [TypeError], then a missing parameter does.  The
    values bound to the three declared parameters are [rag_query],
    [system_prompt_config] and [l]. *)
Definition chatbot_call (kwargs : list string) (rag_query : string -> Z -> result (list retrieved))
    (system_prompt_config : py_dict) (l : llm) : result Chatbot :=
  match find (fun k => negb (existsb (String.eqb k) chatbot_params)) kwargs with
  | Some k => Err (TypeError ("Chatbot.__init__() got an unexpected keyword argument '" +++ k +++ "'"))
  | None =>
      match filter (fun p => negb (existsb (String.eqb p) kwargs)) chatbot_params with
      | [] => chatbot_init rag_query system_prompt_config l
      | missing => Err (TypeError ("Chatbot.__init__() " +++ missing_message missing))
      end
  end.

(** The keywords of the [Chatbot(...)] call in [main.initialize_chatbot]. *)
Definition main_chatbot_kwargs : list string :=
  ["rag_pipeline"; "system_prompt_config"; "llm_client"; "memory_manager"].

(** ** services/llms.py and utils/helpers.py:load_env *)

(** Errors at start-up: [assert] failures and raised exceptions. *)
Inductive startup_error :=
| AssertionError (msg : string)
| Raised (e : py_error).

Inductive startup (A : Type) :=
| Started (a : A)
| Failed (e : startup_error).
Arguments Started {A} a.
Arguments Failed {A} e.

(** A client constructor call: the class and its keyword arguments. *)
Inductive chat_client :=
| ChatGoogleGenerativeAI (model : string) (temperature : float) (api_key : option string)
| ChatGroq (model_name : string) (temperature : float) (api_key : option string).

Definition available_models : list string :=
  ["gemini-1.5-flash"; "gemini-1.5-pro"; "llama3-8b-8192"].

(** [load_env()]: [env] is [os.getenv] after [load_dotenv(ENV_FPATH, override=True)]. *)
Definition load_env (env : string -> option string) : startup unit :=
  match env "GOOGLE_API_KEY" with
  | Some k => if String.eqb k "" then
                Failed (AssertionError "'api_key' has not been loaded or is not set in the .env file.")
              else Started tt
  | None => Failed (AssertionError "'api_key' has not been loaded or is not set in the .env file.")
  end.

(** [return <constructor call>]. *)
Definition return_client {C} (r : startup C) : startup (option C) :=
  match r with Started c => Started (Some c) | Failed e => Failed e end.

(** [get_llm(model)]: [construct] runs a client constructor of the
    LangChain integrations, which may raise (ChatGroq does without a Groq
    API key); [None] is the implicit [return None] after the [if]/[elif]
    chain.  The error message of an unknown model evaluates
    [available_models.keys()] on a list, which raises [AttributeError]. *)
Definition get_llm {C} (construct : chat_client -> startup C) (env : string -> option string)
    (model : string) : startup (option C) :=
  match load_env env with
  | Failed e => Failed e
  | Started _ =>
      if negb (existsb (String.eqb model) available_models) then
        Failed (Raised (AttributeError "'list' object has no attribute 'keys'"))
      else if existsb (String.eqb model) ["gemini-1.5-flash"; "gemini-1.5-pro"] then
        return_client (construct (ChatGoogleGenerativeAI model 0.0%float (env "GOOGLE_API_KEY")))
      else if String.eqb model "llama3-8b-8192" then
        return_client (construct (ChatGroq "llama3-8b-8192" 0.0%float (env "GROQ_API_KEY")))
      else Started None
  end.

(** ** interfaces/cli.py *)

(** [str.lower] (code points < 256). *)
Fixpoint py_lower (s : string) : string :=
  match s with
  | EmptyString => EmptyString
  | String c r => String (lower_char c) (py_lower r)
  end.

Definition py_error_message (e : py_error) : string :=
  match e with
  | ValueError m | TypeError m | IndexError m | AttributeError m => m
  end.

Definition is_exit_command (user_input : string) : bool :=
  existsb (String.eqb (py_lower user_input)) ["exit"; "quit"].

(** Everything [run_cli] writes to stdout, one string per [print] call
    (with its newline) or [input] prompt, and the queries it passed to
    [chatbot.ask].  [fuel] bounds the number of loop iterations; the
    result's boolean says whether the loop left by [break].  At the end of
    the input, [input] raises [EOFError], which the [except Exception]
    branch prints.  [KeyboardInterrupt] and [time.sleep] are not modelled. *)
Fixpoint run_cli_loop (ask_fn : string -> result ask_result) (fuel : nat)
    (lines : list string) (out asked : list string) : list string * list string * bool :=
  match fuel with
  | 0 => (out, asked, false)
  | S f =>
      let out := out ++ ["You: "] in
      match lines with
      | [] => run_cli_loop ask_fn f [] (out ++ [nl +++ "Error: EOF when reading a line" +++ nl +++ nl]) asked
      | line :: rest =>
          let user_input := py_strip line in
          if is_exit_command user_input then
            (out ++ [nl +++ "Exiting chat. Goodbye!" +++ nl +++ nl], asked, true)
          else if String.eqb user_input "" then run_cli_loop ask_fn f rest out asked
          else
            let printed :=
              match ask_fn user_input with
              | Ok r => nl +++ "Assistant: " +++ py_strip (ask_response r) +++ nl +++ nl
              | Err e => nl +++ "Error: " +++ py_error_message e +++ nl +++ nl
              end in
            run_cli_loop ask_fn f rest (out ++ [printed]) (asked ++ [user_input])
      end
  end.

Definition run_cli (ask_fn : string -> result ask_result) (fuel : nat) (lines : list string)
  : list string * list string * bool :=
  run_cli_loop ask_fn fuel lines
    [nl +++ "Research Assistant Chatbot (CLI Mode)" +++ nl;
     "Type 'exit' or 'quit' to end the session." +++ nl +++ nl] [].

(** * Properties *)

(** ** The bounded deque of [MemoryManager.history] *)

(** The [n] most recent items of [l]. *)
Definition lastn {A} (n : nat) (l : list A) : list A := skipn (length l - n) l.

(** The messages [add_turn] appends for a sequence of (user, assistant) pairs. *)
Definition turn_messages (turns : list (string * string)) : list turn :=
  concat (map (fun '(u, a) => [mkTurn "user" u; mkTurn "assistant" a]) turns).

Definition add_turns (mm : MemoryManager) (turns : list (string * string)) : MemoryManager :=
  fold_left (fun m '(u, a) => add_turn m u a) turns mm.

Lemma tl_skipn {A} (k : nat) (l : list A) : tl (skipn k l) = skipn (S k) l.
Proof.
  revert l; induction k as [|k IH]; intros [|x l]; simpl; auto.
Qed.

Lemma tl_app_single {A} (l : list A) (x : A) :
  l <> [] -> tl (l ++ [x]) = tl l ++ [x].
Proof. destruct l; [congruence | reflexivity]. Qed.

Lemma deque_append_lastn {A} (m : nat) (l : list A) (x : A) :
  deque_append m (lastn m l) x = lastn m (l ++ [x]).
Proof.
  unfold deque_append, lastn.
  rewrite length_app; simpl.
  destruct (Nat.le_gt_cases m (length l)) as [Hle | Hgt].
  - rewrite length_app, length_skipn; simpl.
    destruct (Nat.ltb_spec m (length l - (length l - m) + 1)) as [_ | Hn]; [| lia].
    destruct m as [|m].
    + rewrite Nat.sub_0_r, skipn_all, Nat.add_1_r, skipn_all2 by (rewrite length_app; simpl; lia).
      reflexivity.
    + rewrite tl_app_single.
      * rewrite tl_skipn, skipn_app.
        replace (S (length l - S m)) with (length l + 1 - S m) by lia.
        replace (length l + 1 - S m - length l) with 0 by lia. reflexivity.
      * intro E. apply (f_equal (@length A)) in E. rewrite length_skipn in E. simpl in E. lia.
  - replace (length l - m) with 0 by lia. simpl. rewrite length_app; simpl.
    destruct (Nat.ltb_spec m (length l + 1)); [lia |].
    replace (length l + 1 - m) with 0 by lia. reflexivity.
Qed.

Lemma add_turn_lastn (mm : MemoryManager) (u a : string) (prev : list turn) :
  history mm = lastn (maxlen mm) prev ->
  history (add_turn mm u a) =
  lastn (maxlen mm) (prev ++ [mkTurn "user" u; mkTurn "assistant" a]).
Proof.
  intros H. unfold add_turn; simpl. rewrite H, deque_append_lastn, deque_append_lastn.
  rewrite <- app_assoc. reflexivity.
Qed.

Lemma add_turns_lastn (turns : list (string * string)) :
  forall (mm : MemoryManager) (prev : list turn),
  history mm = lastn (maxlen mm) prev ->
  maxlen (add_turns mm turns) = maxlen mm /\
  history (add_turns mm turns) = lastn (maxlen mm) (prev ++ turn_messages turns).
Proof.
  induction turns as [|[u a] turns IH]; intros mm prev H; simpl.
  - rewrite app_nil_r. auto.
  - destruct (IH (add_turn mm u a) (prev ++ [mkTurn "user" u; mkTurn "assistant" a]))
      as [IH1 IH2].
    + change (maxlen (add_turn mm u a)) with (maxlen mm). apply add_turn_lastn; exact H.
    + change (maxlen (add_turn mm u a)) with (maxlen mm) in IH1, IH2.
      unfold add_turns in *. simpl. rewrite IH1, IH2.
      rewrite <- app_assoc. auto.
Qed.

Lemma length_turn_messages (turns : list (string * string)) :
  length (turn_messages turns) = 2 * length turns.
Proof.
  induction turns as [|[u a] turns IH]; simpl; [reflexivity |].
  unfold turn_messages in *. simpl. rewrite IH. lia.
Qed.

(** C4 *)
(** C4: a manager built with window size [w] has a deque of capacity [2*w];
    after any sequence of [add_turn] calls its history is the [2*w] most
    recent messages (user then assistant for each call), evicted FIFO; in
    particular after [w+1] calls it holds exactly [2*w] messages, all of the
    appended messages but the oldest pair. *)
Theorem add_turn_sliding_window (w limit : Z) (mm : MemoryManager) :
  memory_init w limit = Ok mm ->
  maxlen mm = 2 * Z.to_nat w /\
  (forall turns, history (add_turns mm turns) = lastn (2 * Z.to_nat w) (turn_messages turns)) /\
  (forall turns, length turns = S (Z.to_nat w) ->
     history (add_turns mm turns) = skipn 2 (turn_messages turns) /\
     length (history (add_turns mm turns)) = 2 * Z.to_nat w).
Proof.
  unfold memory_init. destruct (Z.ltb_spec (w * 2) 0) as [_ | Hw]; [discriminate |].
  intros E. injection E as <-. simpl.
  assert (Hm : Z.to_nat (w * 2) = 2 * Z.to_nat w) by lia.
  rewrite Hm.
  assert (Hall : forall turns,
    history (add_turns (mkMemory [] (2 * Z.to_nat w) "" limit) turns)
    = lastn (2 * Z.to_nat w) (turn_messages turns)).
  { intros turns. destruct (add_turns_lastn turns (mkMemory [] (2 * Z.to_nat w) "" limit) [])
      as [_ H2]; [reflexivity | exact H2]. }
  split; [reflexivity | split; [exact Hall |]].
  intros turns Hlen. rewrite Hall. unfold lastn.
  rewrite length_turn_messages, Hlen.
  replace (2 * S (Z.to_nat w) - 2 * Z.to_nat w) with 2 by lia.
  split; [reflexivity |]. rewrite length_skipn, length_turn_messages, Hlen. lia.
Qed.

Lemma add_turn_sliding_window_witness :
  memory_init 2 100 = Ok (mkMemory [] 4 "" 100) /\
  maxlen (mkMemory [] 4 "" 100) = 2 * Z.to_nat 2.
Proof.
  split; [reflexivity |].
  apply (proj1 (add_turn_sliding_window 2 100 (mkMemory [] 4 "" 100) eq_refl)).
Defined.

(** ** String lemmas *)

Lemma str_append_assoc (a b c : string) : (a +++ b) +++ c = a +++ (b +++ c).
Proof. induction a as [|x a IH]; simpl; [reflexivity | now rewrite IH]. Qed.

Lemma str_append_empty (a : string) : a +++ "" = a.
Proof. induction a as [|x a IH]; simpl; [reflexivity | now rewrite IH]. Qed.

Lemma str_length_append (a b : string) :
  String.length (a +++ b) = String.length a + String.length b.
Proof. induction a as [|x a IH]; simpl; [reflexivity | now rewrite IH]. Qed.

(** ** The summarization step of [MemoryManager] *)

Lemma trim_history_spec (cnt : list turn -> nat) (limit : Z) (h : list turn) :
  exists k, trim_history cnt limit h = skipn k h /\
    (forall j, j < k -> (limit < Z.of_nat (cnt (skipn j h)))%Z /\ 2 < length (skipn j h)) /\
    ((Z.of_nat (cnt (skipn k h)) <= limit)%Z \/ length (skipn k h) <= 2).
Proof.
  induction h as [|x r IH].
  - exists 0. simpl. split; [reflexivity | split; [intros; lia | right; simpl; lia]].
  - simpl trim_history.
    destruct (Z.ltb_spec limit (Z.of_nat (cnt (x :: r)))) as [Hc | Hc];
    destruct (Nat.ltb_spec 2 (S (length r))) as [Hl | Hl]; simpl andb; cbv iota.
    + destruct IH as [k [Ek [Hbefore Hstop]]].
      exists (S k). split; [exact Ek |]. split; [| exact Hstop].
      intros [|j] Hj; [split; assumption |]. apply Hbefore. lia.
    + exists 0. split; [reflexivity | split; [intros; lia | right; simpl; lia]].
    + exists 0. split; [reflexivity | split; [intros; lia | left; exact Hc]].
    + exists 0. split; [reflexivity | split; [intros; lia | left; exact Hc]].
Qed.

Lemma skipn_nonempty_of_loop {A} (h : list A) (k : nat) (P : nat -> Prop) :
  h <> [] ->
  (forall j, j < k -> P j /\ 2 < length (skipn j h)) ->
  skipn k h <> [].
Proof.
  intros Hh Hbefore E.
  assert (Hk : length h <= k).
  { apply (f_equal (@length A)) in E. rewrite length_skipn in E. simpl in E. lia. }
  destruct h as [|x r]; [congruence |].
  destruct (Hbefore (length r)) as [_ Hlen]; [simpl in Hk; lia |].
  rewrite length_skipn in Hlen. cbn [length] in Hlen. lia.
Qed.

Lemma set_history_same (mm : MemoryManager) : set_history mm (history mm) = mm.
Proof. destruct mm; reflexivity. Qed.

(** C2 *)
(** C2: [update_summary] renders the history and counts its tokens with
    the model's tokenizer, or [int(words * 1.3)] when there is none; it
    drops the oldest single message while the count exceeds [token_limit]
    and more than two messages (one pair) remain, so the kept history is
    [skipn k history] for the first [k] where the loop stops; with an empty
    history it returns [None] and changes nothing; otherwise the kept
    history is non-empty and the result is the stripped LLM reply to the
    summarization request built from its transcript. *)
Theorem update_summary_algorithm (enc : string -> option (string -> nat)) (l : llm)
    (tmpl : list template_piece) (mm : MemoryManager) :
  (forall h, history_tokens enc l h =
     match enc (llm_model_name l) with
     | Some tokenizer => tokenizer (render_history h)
     | None => 13 * length (py_split (render_history h)) / 10
     end) /\
  (history mm = [] -> update_summary enc l tmpl mm = (None, mm)) /\
  (history mm <> [] -> exists k,
     (forall j, j < k ->
        (token_limit mm < Z.of_nat (history_tokens enc l (skipn j (history mm))))%Z /\
        2 < length (skipn j (history mm))) /\
     ((Z.of_nat (history_tokens enc l (skipn k (history mm))) <= token_limit mm)%Z \/
      length (skipn k (history mm)) <= 2) /\
     skipn k (history mm) <> [] /\
     fst (update_summary enc l tmpl mm) =
       Some (py_strip (llm_invoke l (summary_request tmpl
                                       (render_history (skipn k (history mm))))))).
Proof.
  split; [intros h; reflexivity |].
  split.
  - intros Hh. unfold update_summary. cbv zeta. rewrite Hh.
    destruct (token_limit mm <? _)%Z; cbn [trim_history];
      rewrite <- Hh, set_history_same; reflexivity.
  - intros Hh.
    assert (Hk : exists k, (if (token_limit mm <? Z.of_nat (history_tokens enc l (history mm)))%Z
                            then trim_history (history_tokens enc l) (token_limit mm) (history mm)
                            else history mm) = skipn k (history mm) /\
       (forall j, j < k ->
          (token_limit mm < Z.of_nat (history_tokens enc l (skipn j (history mm))))%Z /\
          2 < length (skipn j (history mm))) /\
       ((Z.of_nat (history_tokens enc l (skipn k (history mm))) <= token_limit mm)%Z \/
        length (skipn k (history mm)) <= 2)).
    { destruct (Z.ltb_spec (token_limit mm) (Z.of_nat (history_tokens enc l (history mm))))
        as [Hc | Hc].
      - apply trim_history_spec.
      - exists 0. split; [reflexivity | split; [intros; lia | left; exact Hc]]. }
    destruct Hk as [k [Ek [Hbefore Hstop]]].
    assert (Hne : skipn k (history mm) <> [])
      by (apply (skipn_nonempty_of_loop _ _ (fun _ => True)); [exact Hh |];
          intros j Hj; split; [exact I | apply Hbefore, Hj]).
    exists k. split; [exact Hbefore | split; [exact Hstop | split; [exact Hne |]]].
    unfold update_summary. cbv zeta. rewrite Ek.
    destruct (skipn k (history mm)) eqn:Es; [congruence | reflexivity].
Qed.

(** The calls a caller can make on a [MemoryManager]. *)
Inductive memory_op :=
| OpAddTurn (user_message assistant_response : string)
| OpGetRecentHistory
| OpGetCombinedContext
| OpUpdateSummary (encoding_for_model : string -> option (string -> nat))
                  (l : llm) (tmpl : list template_piece)
| OpToDict.

Definition memory_step (mm : MemoryManager) (op : memory_op) : MemoryManager :=
  match op with
  | OpAddTurn u a => add_turn mm u a
  | OpUpdateSummary enc l tmpl => snd (update_summary enc l tmpl mm)
  | OpGetRecentHistory | OpGetCombinedContext | OpToDict => mm
  end.

Definition run_memory (mm : MemoryManager) (ops : list memory_op) : MemoryManager :=
  fold_left memory_step ops mm.

Lemma update_summary_shape (enc : string -> option (string -> nat)) (l : llm)
    (tmpl : list template_piece) (mm : MemoryManager) :
  (fst (update_summary enc l tmpl mm) = None /\
   summary (snd (update_summary enc l tmpl mm)) = summary mm) \/
  (exists new_summary,
   fst (update_summary enc l tmpl mm) = Some new_summary /\
   summary (snd (update_summary enc l tmpl mm)) = summary mm +++ nl +++ new_summary +++ nl /\
   history (snd (update_summary enc l tmpl mm)) = []).
Proof.
  unfold update_summary. cbv zeta.
  destruct (if (token_limit mm <? _)%Z then _ else _) as [|t h'].
  - left. split; reflexivity.
  - right. eexists. split; [reflexivity | split; reflexivity].
Qed.

Lemma memory_step_extends (mm : MemoryManager) (op : memory_op) :
  exists suffix, summary (memory_step mm op) = summary mm +++ suffix.
Proof.
  destruct op as [u a| | |enc l tmpl|]; simpl.
  - exists "". unfold add_turn; simpl. now rewrite str_append_empty.
  - exists "". now rewrite str_append_empty.
  - exists "". now rewrite str_append_empty.
  - destruct (update_summary_shape enc l tmpl mm) as [[_ E] | [ns [_ [E _]]]]; rewrite E.
    + exists "". now rewrite str_append_empty.
    + eexists. reflexivity.
  - exists "". now rewrite str_append_empty.
Qed.

Lemma run_memory_extends (ops : list memory_op) :
  forall mm, exists suffix, summary (run_memory mm ops) = summary mm +++ suffix.
Proof.
  induction ops as [|op ops IH]; intros mm; simpl.
  - exists "". now rewrite str_append_empty.
  - destruct (memory_step_extends mm op) as [s1 E1].
    destruct (IH (memory_step mm op)) as [s2 E2].
    exists (s1 +++ s2). unfold run_memory in *. rewrite E2, E1, str_append_assoc. reflexivity.
Qed.

(** C3 *)
(** C3: along any sequence of [MemoryManager] calls the summary only grows
    (the old summary is a prefix of the new one, so its length never
    decreases); and when [update_summary] summarizes, the summary becomes
    the old one followed by [\n], the new fragment and [\n] (strictly
    longer, never overwritten) and the history is emptied. *)
Theorem summary_append_only :
  (forall (ops : list memory_op) (mm : MemoryManager),
     (exists suffix, summary (run_memory mm ops) = summary mm +++ suffix) /\
     String.length (summary mm) <= String.length (summary (run_memory mm ops))) /\
  (forall enc (l : llm) tmpl (mm : MemoryManager) new_summary,
     fst (update_summary enc l tmpl mm) = Some new_summary ->
     summary (snd (update_summary enc l tmpl mm)) = summary mm +++ nl +++ new_summary +++ nl /\
     history (snd (update_summary enc l tmpl mm)) = [] /\
     String.length (summary mm) < String.length (summary (snd (update_summary enc l tmpl mm)))).
Proof.
  split.
  - intros ops mm. destruct (run_memory_extends ops mm) as [suffix E].
    split; [exists suffix; exact E |]. rewrite E, str_length_append. lia.
  - intros enc l tmpl mm ns Hs.
    destruct (update_summary_shape enc l tmpl mm) as [[E _] | [ns' [E [Es Eh]]]];
      rewrite Hs in E; [discriminate |].
    injection E as <-. rewrite Es. split; [reflexivity | split; [exact Eh |]].
    rewrite str_length_append. simpl. lia.
Qed.

(** ** The rendered memory context *)

Definition two_turns_memory : MemoryManager :=
  add_turn (add_turn (mkMemory [] 8 "" 2500) "q1" "a1") "q2" "a2".

(** C6 *)
(** C6: after two [add_turn] calls the combined context lists the four
    history dicts through the [UNKNOWN (dict)] fallback of
    [messages_to_string]: no [USER Qn] tag and no separator line before
    the second user turn, whereas LangChain messages with the same
    contents do get the separator. *)
Theorem combined_context_two_turns :
  get_combined_context two_turns_memory =
    "Conversation Summary:" +++ nl +++ "No summary yet." +++ nl +++ nl
    +++ "Recent Conversation:" +++ nl
    +++ "UNKNOWN (dict): {'role': 'user', 'content': 'q1'}" +++ nl +++ nl
    +++ "UNKNOWN (dict): {'role': 'assistant', 'content': 'a1'}" +++ nl +++ nl
    +++ "UNKNOWN (dict): {'role': 'user', 'content': 'q2'}" +++ nl +++ nl
    +++ "UNKNOWN (dict): {'role': 'assistant', 'content': 'a2'}" /\
  contains separator_line (get_combined_context two_turns_memory) = false /\
  contains separator_line
    (messages_to_string [HumanMessage "q1"; AIMessage "a1"; HumanMessage "q2"; AIMessage "a2"])
    = true.
Proof. vm_compute. split; [reflexivity | split; reflexivity]. Qed.

(** ** [Chatbot.ask] and the assembled LLM input *)

Lemma find_none_forall {A} (f : A -> bool) (l : list A) :
  (forall x, In x l -> f x = false) -> find f l = None.
Proof.
  induction l as [|x l IH]; intros H; [reflexivity |].
  cbn [find]. rewrite (H x (or_introl eq_refl)). apply IH. intros y Hy. apply H. right. exact Hy.
Qed.

(** C1 *)
(** C1 (code bug): the Chatbot has no MemoryManager to record turns in.
    [Chatbot.__init__] declares only [rag_pipeline], [system_prompt_config]
    and [llm_client], so any construction that hands it a MemoryManager
    through [memory_manager=] (as [main.initialize_chatbot] does) raises
    [TypeError]; the constructions it accepts are [chatbot_init], whose
    chatbot holds the retrieval, the system prompt and the LLM only. *)
Theorem chatbot_rejects_memory_manager (rag_query : string -> Z -> result (list retrieved))
    (system_prompt_config : py_dict) (l : llm) :
  chatbot_call main_chatbot_kwargs rag_query system_prompt_config l =
    Err (TypeError "Chatbot.__init__() got an unexpected keyword argument 'memory_manager'") /\
  (forall kwargs, In "memory_manager" kwargs ->
     exists msg, chatbot_call kwargs rag_query system_prompt_config l = Err (TypeError msg)) /\
  (forall kwargs, (forall k, In k kwargs -> In k chatbot_params) ->
     (forall p, In p chatbot_params -> In p kwargs) ->
     chatbot_call kwargs rag_query system_prompt_config l =
       chatbot_init rag_query system_prompt_config l).
Proof.
  split; [reflexivity |]. split.
  - intros kwargs Hin. unfold chatbot_call.
    destruct (find (fun k => negb (existsb (String.eqb k) chatbot_params)) kwargs) eqn:Ef;
      [eexists; reflexivity | exfalso].
    assert (Hf : negb (existsb (String.eqb "memory_manager") chatbot_params) = true)
      by reflexivity.
    apply (find_none _ _ Ef) in Hin. rewrite Hf in Hin. discriminate.
  - intros kwargs Hk Hp. unfold chatbot_call.
    rewrite find_none_forall.
    + assert (Hin : forall p, In p chatbot_params -> existsb (String.eqb p) kwargs = true).
      { intros p0 Hp0. apply existsb_exists. exists p0.
        split; [apply Hp, Hp0 | apply String.eqb_refl]. }
      unfold chatbot_params at 1. cbn [filter].
      rewrite (Hin "rag_pipeline"), (Hin "system_prompt_config"), (Hin "llm_client")
        by (cbn; tauto).
      reflexivity.
    + intros x Hx. apply negb_false_iff, existsb_exists. exists x.
      split; [apply Hk, Hx | apply String.eqb_refl].
Qed.

(** A chatbot whose retrieval finds nothing and whose LLM always answers
    ["Paris."]. *)
Definition demo_llm : llm := mkLLM (Some "gemini-2.5-flash") (fun _ => "Paris.").

Definition demo_bot : Chatbot := mkChatbot (fun _ _ => Ok []) "You are an assistant." demo_llm.

Definition demo_float_repr (f : float) : string := "0.5".

Definition placeholder : string := "No relevant chunks retrieved".

(** The failing input of C5: with no retrieved chunk the LLM input holds
    an empty context, neither a "No relevant chunks retrieved" placeholder
    nor the MemoryManager's rendered context. *)
Lemma no_chunks_placeholder_counterexample :
  chain_input demo_float_repr demo_bot "What is X?" =
    Ok [mkTurn "human" (prompt_text "You are an assistant." "" "What is X?")] /\
  contains placeholder (prompt_text "You are an assistant." "" "What is X?") = false /\
  contains "Conversation Summary:" (prompt_text "You are an assistant." "" "What is X?") = false.
Proof. vm_compute. split; [reflexivity | split; reflexivity]. Qed.

Lemma map_fst_enumerate_from {A} (l : list A) :
  forall k, map fst (enumerate_from k l) = seq k (length l).
Proof. induction l as [|x l IH]; intros k; simpl; [reflexivity | now rewrite IH]. Qed.

Lemma map_snd_enumerate_from {A} (l : list A) :
  forall k, map snd (enumerate_from k l) = l.
Proof. induction l as [|x l IH]; intros k; simpl; [reflexivity | now rewrite IH]. Qed.

(** C5 *)
(** C5 (code bug): when retrieval (top_k = 5) returns [context], the LLM
    gets one message, the template filled with the system prompt, the
    formatted context and the query only: no MemoryManager context enters
    it.  The formatted context is, for the N-th result (from 1),
    ["Chunk N:"], a newline and that result, joined by blank lines; with
    no result it is empty, with no placeholder. *)
Theorem chain_input_context (float_repr : float -> string) (cb : Chatbot)
    (user_query : string) (context : list retrieved) :
  rag cb user_query 5 = Ok context ->
  chain_input float_repr cb user_query =
    Ok [mkTurn "human"
          (prompt_text (system_prompt cb) (format_context float_repr context) user_query)] /\
  format_context float_repr context =
    py_join (nl +++ nl)
      (map (fun '(n, r) => "Chunk " +++ str_nat n +++ ":" +++ nl +++ str_retrieved float_repr r)
           (combine (seq 1 (length context)) context)) /\
  (context = [] -> format_context float_repr context = "").
Proof.
  intros E. split; [unfold chain_input; rewrite E; reflexivity |].
  split; [| intros ->; reflexivity].
  unfold format_context. f_equal.
  assert (Hc : forall k, map (fun '(i, chunk) => "Chunk " +++ str_nat (i + 1) +++ ":" +++ nl
                                                +++ str_retrieved float_repr chunk)
                             (enumerate_from k context)
                = map (fun '(n, r) => "Chunk " +++ str_nat n +++ ":" +++ nl
                                      +++ str_retrieved float_repr r)
                      (combine (seq (S k) (length context)) context)).
  { clear E. induction context as [|x l IH]; intros k; simpl; [reflexivity |].
    rewrite IH, Nat.add_1_r. reflexivity. }
  apply Hc.
Qed.

Definition demo_hit : retrieved :=
  mkRetrieved "Paris is the capital." (Some [("title", PStr "Geo")]) (Some 0.5%float).

Definition demo_bot_hit : Chatbot :=
  mkChatbot (fun _ _ => Ok [demo_hit]) "You are an assistant." demo_llm.

Lemma chain_input_context_witness :
  rag demo_bot_hit "What is X?" 5 = Ok [demo_hit] /\
  format_context demo_float_repr [demo_hit] =
    "Chunk 1:" +++ nl
      +++ "{'content': 'Paris is the capital.', 'metadata': {'title': 'Geo'}, 'similarity': 0.5}".
Proof.
  split; [reflexivity |].
  rewrite (proj1 (proj2 (chain_input_context demo_float_repr demo_bot_hit "What is X?" [demo_hit]
                           eq_refl))).
  vm_compute. reflexivity.
Defined.

(** ** [RAGPipeline.ingest_publications] *)

(** A store that records every [add_chunks] batch. *)
Definition batch := (list pyval * list string * list py_dict * list (list float))%type.

Definition log_add (st : list batch) (ids : list pyval) (docs : list string)
    (metas : list py_dict) (embs : list (list float)) : list batch :=
  st ++ [(ids, docs, metas, embs)].

Definition demo_embedder : embedder :=
  mkEmbedder (fun texts => map (fun _ => [0.5%float]) texts) (fun _ => [0.5%float]).

Definition one_piece_splitter (s : string) : list string :=
  if String.eqb (py_strip s) "" then [] else [py_strip s].

(** C7 *)
(** C7 (as stated, refuted): ingesting no publication returns Python
    [None], not the count 0. *)
Lemma ingest_empty_count_counterexample :
  ingest_publications (list batch) log_add one_piece_splitter demo_embedder [] []
    = Ok (None, ["No documents found to ingest."], []) /\
  ingest_publications (list batch) log_add one_piece_splitter demo_embedder [] []
    <> Ok (Some 0, ["No documents found to ingest."], []).
Proof. split; [reflexivity | discriminate]. Qed.

(** C7 (amended): on an empty list [ingest_publications] prints "No
    documents found to ingest.", returns [None] and leaves the store as it
    is; on a non-empty list that chunks without error it calls
    [add_chunks] once with the chunk ids, texts, metadata and embeddings,
    prints the chunk count and returns [None] as well. *)
Theorem ingest_publications_result (store : Type)
    (add_chunks : store -> list pyval -> list string -> list py_dict -> list (list float) -> store)
    (split_text : string -> list string) (emb : embedder) (st : store) :
  ingest_publications store add_chunks split_text emb [] st
    = Ok (None, ["No documents found to ingest."], st) /\
  (forall publications chunks,
     publications <> [] ->
     split_publications split_text publications = Ok chunks ->
     ingest_publications store add_chunks split_text emb publications st =
       Ok (None, ["Ingested " +++ str_nat (length chunks) +++ " chunks to vector DB."],
           add_chunks st (map (fun c => dict_get (chunk_metadata c) "chunk_id") chunks)
             (map chunk_content chunks) (map chunk_metadata chunks)
             (embed_documents emb (map chunk_content chunks)))).
Proof.
  split; [reflexivity |].
  intros [|p ps] chunks Hne Hs; [congruence |].
  unfold ingest_publications. rewrite Hs. rewrite map_map. reflexivity.
Qed.

(** ** [RAGPipeline.query] *)

(** A response key the code can read: absent, or a list holding the
    inner list of the (single) query vector. *)
Definition field_usable {A} (f : field A) : bool :=
  match f with
  | Missing => true
  | NoneField => false
  | Present [] => false
  | Present (_ :: _) => true
  end.

Lemma first_of_usable {A} (f : field A) :
  field_usable f = true -> exists l, first_of f = Ok l.
Proof. destruct f as [| |[|x xs]]; simpl; try discriminate; eauto. Qed.

Lemma nth_error_enumerate_from {A} (l : list A) (d : A) :
  forall k i, i < length l -> nth_error (enumerate_from k l) i = Some (k + i, nth i l d).
Proof.
  induction l as [|x l IH]; intros k i Hi; simpl in Hi; [lia |].
  destruct i as [|i]; simpl.
  - now rewrite Nat.add_0_r.
  - rewrite IH by lia. now rewrite Nat.add_succ_r.
Qed.

Lemma length_enumerate_from {A} (l : list A) : forall k, length (enumerate_from k l) = length l.
Proof. induction l as [|x l IH]; intros k; simpl; [reflexivity | now rewrite IH]. Qed.

Lemma format_results_spec (docs : list string) (metadatas : list (option py_dict))
    (distances : list float) :
  length (format_results docs metadatas distances) = length docs /\
  forall i, i < length docs ->
    nth_error (format_results docs metadatas distances) i =
      Some (mkRetrieved (nth i docs "")
              (if i <? length metadatas then nth i metadatas (Some []) else Some [])
              (if i <? length distances then Some (1.0 - nth i distances 0.0)%float else None)).
Proof.
  unfold format_results. rewrite length_map, length_enumerate_from.
  split; [reflexivity |].
  intros i Hi. rewrite nth_error_map, (nth_error_enumerate_from docs "") by exact Hi.
  reflexivity.
Qed.

(** C8 *)
(** C8: when each of the keys documents, metadatas and distances of the
    store's answer is absent or holds the list for the query vector,
    [query] succeeds with one result per document: its content, its
    metadata entry or [{}] when the metadata list is too short (or the key
    absent), and [1.0 - distance] or [None] when the distance list is too
    short (or the key absent). *)
Theorem query_defaults (store : Type)
    (query_by_vector : store -> list float -> Z -> query_response)
    (emb : embedder) (st : store) (query_text : string) (top_k : Z) :
  field_usable (r_documents (query_by_vector st (embed_query emb query_text) top_k)) = true ->
  field_usable (r_metadatas (query_by_vector st (embed_query emb query_text) top_k)) = true ->
  field_usable (r_distances (query_by_vector st (embed_query emb query_text) top_k)) = true ->
  exists docs metadatas distances results,
    first_of (r_documents (query_by_vector st (embed_query emb query_text) top_k)) = Ok docs /\
    first_of (r_metadatas (query_by_vector st (embed_query emb query_text) top_k)) = Ok metadatas /\
    first_of (r_distances (query_by_vector st (embed_query emb query_text) top_k)) = Ok distances /\
    query store query_by_vector emb st query_text top_k = Ok results /\
    length results = length docs /\
    forall i, i < length docs ->
      nth_error results i =
        Some (mkRetrieved (nth i docs "")
                (if i <? length metadatas then nth i metadatas (Some []) else Some [])
                (if i <? length distances then Some (1.0 - nth i distances 0.0)%float else None)).
Proof.
  intros Hd Hm Hs.
  destruct (first_of_usable _ Hd) as [docs Ed].
  destruct (first_of_usable _ Hm) as [metas Em].
  destruct (first_of_usable _ Hs) as [dists Es].
  exists docs, metas, dists, (format_results docs metas dists).
  split; [exact Ed | split; [exact Em | split; [exact Es |]]].
  split; [unfold query; cbv zeta; rewrite Ed, Em, Es; reflexivity |].
  apply format_results_spec.
Qed.

(** A store answer with two documents, one metadata entry and no
    distances key. *)
Definition sparse_response : query_response :=
  mkResponse (Present [["alpha"; "beta"]]) (Present [[Some [("title", PStr "A")]]]) Missing.

Lemma query_defaults_witness :
  field_usable (r_documents sparse_response) = true /\
  exists docs metadatas distances results,
    first_of (r_documents sparse_response) = Ok docs /\
    first_of (r_metadatas sparse_response) = Ok metadatas /\
    first_of (r_distances sparse_response) = Ok distances /\
    query unit (fun _ _ _ => sparse_response) demo_embedder tt "q" 5 = Ok results /\
    length results = length docs /\
    forall i, i < length docs ->
      nth_error results i =
        Some (mkRetrieved (nth i docs "")
                (if i <? length metadatas then nth i metadatas (Some []) else Some [])
                (if i <? length distances then Some (1.0 - nth i distances 0.0)%float else None)).
Proof.
  split; [reflexivity |].
  exact (query_defaults unit (fun _ _ _ => sparse_response) demo_embedder tt "q" 5
           eq_refl eq_refl eq_refl).
Defined.

(** ** [str(n)] and the chunk id scheme ["{publication_id}_{index}"] *)

Lemma nat_digits_acc (f : nat) :
  forall n acc, nat_digits f n acc = nat_digits f n "" +++ acc.
Proof.
  induction f as [|f IH]; intros n acc; cbn [nat_digits]; [reflexivity |].
  destruct (n <? 10); [reflexivity |].
  rewrite (IH (n / 10) (String _ acc)), (IH (n / 10) (String _ "")), str_append_assoc.
  reflexivity.
Qed.

Lemma nat_digits_fuel (f1 : nat) :
  forall f2 n acc, n < f1 -> n < f2 -> nat_digits f1 n acc = nat_digits f2 n acc.
Proof.
  induction f1 as [|f1 IH]; intros [|f2] n acc H1 H2; try lia; cbn [nat_digits].
  destruct (Nat.ltb_spec n 10); [reflexivity |].
  assert (n / 10 < n) by (apply Nat.div_lt; lia). apply IH; lia.
Qed.

Lemma str_nat_step (n : nat) :
  str_nat n = (if n <? 10 then "" else str_nat (n / 10)) +++ String (digit (n mod 10)) "".
Proof.
  unfold str_nat at 1. cbn [nat_digits].
  destruct (Nat.ltb_spec n 10); [reflexivity |].
  rewrite nat_digits_acc. f_equal. unfold str_nat.
  apply nat_digits_fuel; [| lia]. apply Nat.div_lt; lia.
Qed.

Lemma digit_code (k : nat) : k < 10 -> nat_of_ascii (digit k) = 48 + k.
Proof. intros H. unfold digit. apply nat_ascii_embedding. lia. Qed.

Lemma str_append_single_inj (s1 s2 : string) (c1 c2 : ascii) :
  s1 +++ String c1 "" = s2 +++ String c2 "" -> s1 = s2 /\ c1 = c2.
Proof.
  revert s2; induction s1 as [|x s1 IH]; intros [|y s2] E; simpl in E.
  - injection E as ->. auto.
  - injection E as -> E. destruct s2; discriminate.
  - injection E as -> E. destruct s1; discriminate.
  - injection E as -> E. destruct (IH s2 E) as [-> ->]. auto.
Qed.

Lemma str_nat_nonempty (n : nat) : str_nat n <> "".
Proof. rewrite str_nat_step. destruct (n <? 10), (str_nat (n / 10)); discriminate. Qed.

Lemma str_nat_inj (n : nat) : forall m, str_nat n = str_nat m -> n = m.
Proof.
  induction n as [n IH] using lt_wf_ind. intros m E.
  rewrite (str_nat_step n), (str_nat_step m) in E.
  apply str_append_single_inj in E as [Ep Ed].
  assert (Hmod : n mod 10 = m mod 10).
  { apply (f_equal nat_of_ascii) in Ed.
    rewrite !digit_code in Ed by (apply Nat.mod_upper_bound; lia). lia. }
  destruct (Nat.ltb_spec n 10), (Nat.ltb_spec m 10).
  - rewrite !Nat.mod_small in Hmod by lia. exact Hmod.
  - exfalso. apply (str_nat_nonempty (m / 10)). symmetry. exact Ep.
  - exfalso. apply (str_nat_nonempty (n / 10)). exact Ep.
  - apply IH in Ep; [| apply Nat.div_lt; lia].
    rewrite (Nat.div_mod n 10), (Nat.div_mod m 10) by lia. lia.
Qed.

Definition underscore : ascii := "_"%char.

Lemma has_char_append (c : ascii) (a b : string) :
  has_char c (a +++ b) = has_char c a || has_char c b.
Proof.
  induction a as [|x a IH]; simpl; [reflexivity |]. rewrite IH. apply orb_assoc.
Qed.

Lemma str_nat_no_underscore (n : nat) : has_char underscore (str_nat n) = false.
Proof.
  induction n as [n IH] using lt_wf_ind.
  rewrite str_nat_step, has_char_append.
  apply orb_false_intro.
  - destruct (Nat.ltb_spec n 10); [reflexivity |]. apply IH, Nat.div_lt; lia.
  - cbn [has_char]. rewrite orb_false_r. apply Bool.not_true_is_false. intros E.
    apply Ascii.eqb_eq, (f_equal nat_of_ascii) in E.
    rewrite digit_code in E by (apply Nat.mod_upper_bound; lia).
    change (nat_of_ascii underscore) with 95 in E.
    pose proof (Nat.mod_upper_bound n 10). lia.
Qed.

Lemma split_last_underscore (p1 p2 s1 s2 : string) :
  has_char underscore s1 = false -> has_char underscore s2 = false ->
  p1 +++ String underscore s1 = p2 +++ String underscore s2 -> p1 = p2 /\ s1 = s2.
Proof.
  intros H1 H2. revert p2; induction p1 as [|x p1 IH]; intros [|y p2] E; simpl in E.
  - injection E as ->. auto.
  - injection E as <- E. subst s1. rewrite has_char_append in H1. cbn [has_char] in H1.
    rewrite Ascii.eqb_refl in H1. apply orb_false_elim in H1 as [_ H1]. discriminate H1.
  - injection E as -> E. subst s2. rewrite has_char_append in H2. cbn [has_char] in H2.
    rewrite Ascii.eqb_refl in H2. apply orb_false_elim in H2 as [_ H2]. discriminate H2.
  - injection E as -> E. destruct (IH p2 E) as [-> ->]. auto.
Qed.

Definition chunk_id_of (pub_id : string) (i : nat) : pyval :=
  PStr (pub_id +++ "_" +++ str_nat i).

Lemma chunk_id_of_inj (p1 p2 : string) (i j : nat) :
  chunk_id_of p1 i = chunk_id_of p2 j -> p1 = p2 /\ i = j.
Proof.
  unfold chunk_id_of. intros E. injection E as E.
  apply split_last_underscore in E as [-> Es]; try apply str_nat_no_underscore.
  split; [reflexivity | apply str_nat_inj, Es].
Qed.

(** ** [Chunker.split_publications] *)

(** [str(pub.get("id", "unknown"))]. *)
Definition pub_id_str (pub : py_dict) : string := py_str (dict_get_default pub "id" (PStr "unknown")).

Definition chunk_ids (cs : list chunk) : list pyval :=
  map (fun c => dict_get (chunk_metadata c) "chunk_id") cs.

Lemma chunks_of_publication_ids (split_text : string -> list string) (pub : py_dict)
    (cs : list chunk) :
  chunks_of_publication split_text pub = Ok cs ->
  exists description,
    dict_get_default pub "publication_description" (PStr "") = PStr description /\
    map chunk_content cs = split_text description /\
    chunk_ids cs = map (chunk_id_of (pub_id_str pub)) (seq 0 (length cs)).
Proof.
  unfold chunks_of_publication.
  destruct (dict_get_default pub "publication_description" (PStr "")) as [| | |d|];
    try discriminate.
  intros E. injection E as <-. exists d. split; [reflexivity |]. split.
  - rewrite map_map. transitivity (map snd (enumerate_from 0 (split_text d))).
    + apply map_ext. intros [i c]. reflexivity.
    + apply map_snd_enumerate_from.
  - unfold chunk_ids. rewrite map_map, length_map, length_enumerate_from.
    rewrite <- (map_fst_enumerate_from (split_text d) 0), map_map.
    apply map_ext. intros [i c]. reflexivity.
Qed.

Lemma split_publications_concat (split_text : string -> list string)
    (publications : list py_dict) :
  forall chunks, split_publications split_text publications = Ok chunks ->
  exists css, Forall2 (fun p cs => chunks_of_publication split_text p = Ok cs) publications css /\
              chunks = concat css.
Proof.
  induction publications as [|p ps IH]; intros chunks E; simpl in E.
  - injection E as <-. exists []. split; [constructor | reflexivity].
  - destruct (chunks_of_publication split_text p) as [cs|] eqn:Ep; [| discriminate].
    destruct (split_publications split_text ps) as [rest|] eqn:Er; [| discriminate].
    injection E as <-. destruct (IH rest eq_refl) as [css [Hf ->]].
    exists (cs :: css). split; [constructor; assumption | reflexivity].
Qed.

Lemma chunk_ids_concat (css : list (list chunk)) :
  chunk_ids (concat css) = concat (map chunk_ids css).
Proof. unfold chunk_ids. apply concat_map. Qed.

Lemma in_chunk_ids_concat (split_text : string -> list string) (ps : list py_dict)
    (css : list (list chunk)) (x : pyval) :
  Forall2 (fun p cs => chunks_of_publication split_text p = Ok cs) ps css ->
  In x (chunk_ids (concat css)) ->
  exists q i, In q ps /\ x = chunk_id_of (pub_id_str q) i.
Proof.
  induction 1 as [|q cs ps css Hq Hrest IH]; simpl; [tauto |].
  unfold chunk_ids at 1. rewrite map_app. intros Hin. apply in_app_or in Hin as [Hin | Hin].
  - destruct (chunks_of_publication_ids _ _ _ Hq) as [d [_ [_ Eids]]].
    unfold chunk_ids in Eids. rewrite Eids in Hin.
    apply in_map_iff in Hin as [i [<- _]]. exists q, i. auto.
  - destruct (IH Hin) as [q' [i [Hq' ->]]]. exists q', i. auto.
Qed.

Lemma nodup_chunk_ids_of_pub (split_text : string -> list string) (p : py_dict) (cs : list chunk) :
  chunks_of_publication split_text p = Ok cs -> NoDup (chunk_ids cs).
Proof.
  intros Hp. destruct (chunks_of_publication_ids _ _ _ Hp) as [d [_ [_ ->]]].
  apply Injective_map_NoDup; [| apply seq_NoDup].
  intros i j E. apply chunk_id_of_inj in E as [_ E]. exact E.
Qed.

(** C9 *)
(** C9 (amended): in the chunks of a successful [split_publications], the
    chunks of each publication come in order with chunk_id
    ["{str(id)}_{i}"] for i = 0, 1, ... (id "unknown" when missing), are
    exactly the pieces the text splitter returns for its description (none
    when the splitter returns none for the empty description), and have
    pairwise distinct ids; ids are pairwise distinct across publications
    whenever the publications' ids as printed are pairwise distinct. *)
Theorem chunk_ids_sequential (split_text : string -> list string)
    (publications : list py_dict) (chunks : list chunk) :
  split_publications split_text publications = Ok chunks ->
  (exists css,
     chunks = concat css /\
     Forall2 (fun p cs =>
        (exists description,
           dict_get_default p "publication_description" (PStr "") = PStr description /\
           map chunk_content cs = split_text description) /\
        chunk_ids cs = map (chunk_id_of (pub_id_str p)) (seq 0 (length cs)) /\
        NoDup (chunk_ids cs) /\
        (dict_get_default p "publication_description" (PStr "") = PStr "" ->
         split_text "" = [] -> cs = [])) publications css) /\
  (NoDup (map pub_id_str publications) -> NoDup (chunk_ids chunks)).
Proof.
  intros E. destruct (split_publications_concat _ _ _ E) as [css [Hf ->]].
  split.
  - exists css. split; [reflexivity |].
    eapply Forall2_impl; [| exact Hf]. intros p cs Hp.
    destruct (chunks_of_publication_ids _ _ _ Hp) as [d [Ed [Ec Eids]]].
    split; [exists d; auto | split; [exact Eids | split; [exact (nodup_chunk_ids_of_pub split_text p cs Hp) |]]].
    intros Ee Hs. rewrite Ee in Ed. injection Ed as <-. rewrite Hs in Ec.
    destruct cs; [reflexivity | discriminate].
  - clear E. induction Hf as [|p cs ps css Hp Hrest IH]; intros Hnd; [constructor |].
    simpl in Hnd. inversion Hnd as [|? ? Hnotin Hnd']; subst.
    rewrite chunk_ids_concat in IH |- *. simpl. unfold chunk_ids at 1.
    apply NoDup_app.
    + apply (nodup_chunk_ids_of_pub split_text p cs Hp).
    + apply IH, Hnd'.
    + intros x Hx Hx'. rewrite <- chunk_ids_concat in Hx'.
      destruct (in_chunk_ids_concat _ _ _ _ Hrest Hx') as [q [j [Hq ->]]].
      destruct (chunks_of_publication_ids _ _ _ Hp) as [d [_ [_ Eids]]].
      unfold chunk_ids in Eids. rewrite Eids in Hx.
      apply in_map_iff in Hx as [i [Ei _]]. apply chunk_id_of_inj in Ei as [Epq _].
      apply Hnotin. rewrite Epq. apply in_map, Hq.
Qed.

Definition two_untitled_publications : list py_dict :=
  [[("title", PStr "A"); ("publication_description", PStr "Sentence one. Sentence two.")];
   [("title", PStr "B"); ("publication_description", PStr "Another text.")]].

(** Two publications with distinct ids; a splitter that cuts at spaces. *)
Definition two_identified_publications : list py_dict :=
  [[("id", PInt 7); ("publication_description", PStr "alpha beta")];
   [("id", PStr "p2"); ("publication_description", PStr "gamma")]].

Lemma chunk_ids_sequential_witness :
  split_publications py_split two_identified_publications =
    Ok [mkChunk "alpha" [("id", PInt 7); ("username", PNone); ("license", PNone);
                         ("title", PStr "Untitled"); ("chunk_id", PStr "7_0")];
        mkChunk "beta" [("id", PInt 7); ("username", PNone); ("license", PNone);
                        ("title", PStr "Untitled"); ("chunk_id", PStr "7_1")];
        mkChunk "gamma" [("id", PStr "p2"); ("username", PNone); ("license", PNone);
                         ("title", PStr "Untitled"); ("chunk_id", PStr "p2_0")]] /\
  NoDup (chunk_ids
    [mkChunk "alpha" [("id", PInt 7); ("username", PNone); ("license", PNone);
                      ("title", PStr "Untitled"); ("chunk_id", PStr "7_0")];
     mkChunk "beta" [("id", PInt 7); ("username", PNone); ("license", PNone);
                     ("title", PStr "Untitled"); ("chunk_id", PStr "7_1")];
     mkChunk "gamma" [("id", PStr "p2"); ("username", PNone); ("license", PNone);
                      ("title", PStr "Untitled"); ("chunk_id", PStr "p2_0")]]).
Proof.
  assert (E : split_publications py_split two_identified_publications =
    Ok [mkChunk "alpha" [("id", PInt 7); ("username", PNone); ("license", PNone);
                         ("title", PStr "Untitled"); ("chunk_id", PStr "7_0")];
        mkChunk "beta" [("id", PInt 7); ("username", PNone); ("license", PNone);
                        ("title", PStr "Untitled"); ("chunk_id", PStr "7_1")];
        mkChunk "gamma" [("id", PStr "p2"); ("username", PNone); ("license", PNone);
                         ("title", PStr "Untitled"); ("chunk_id", PStr "p2_0")]])
    by (vm_compute; reflexivity).
  split; [exact E |].
  apply (proj2 (chunk_ids_sequential py_split two_identified_publications _ E)).
  vm_compute. constructor; [intros [H | []]; discriminate | constructor; [intros [] | constructor]].
Defined.

(** C9 (as stated, refuted): two publications without an id each give a
    chunk with id "unknown_0", so chunk ids are not unique in the store. *)
Lemma chunk_ids_global_counterexample :
  exists chunks,
    split_publications one_piece_splitter two_untitled_publications = Ok chunks /\
    chunk_ids chunks = [PStr "unknown_0"; PStr "unknown_0"] /\
    ~ NoDup (chunk_ids chunks).
Proof.
  eexists. split; [vm_compute; reflexivity |]. split; [vm_compute; reflexivity |].
  vm_compute. intros H. inversion H as [|? ? Hn]. apply Hn. left. reflexivity.
Qed.

(** ** [build_system_prompt_from_config] *)

(** C10 (as stated, refuted): a role given as the empty string is present
    yet the build fails, and an instruction given as the empty string is
    present yet its block is left out. *)
Lemma system_prompt_role_counterexample :
  build_system_prompt_from_config [("role", PStr "")]
    = Err (ValueError "Missing required 'role' field.") /\
  build_system_prompt_from_config [("role", PStr "Researcher"); ("instruction", PStr "")]
    = Ok "You are researcher".
Proof. split; reflexivity. Qed.

(** The optional blocks, in the order they are appended, with their lead-in. *)
Definition optional_blocks : list (string * string) :=
  [("instruction", "Your Instruction:");
   ("output_constraints", "Follow these important guidelines:");
   ("style_or_tone", "Communication style:");
   ("output_format", "Response formatting:")].

(** A block body: one ["- item"] line per element of a list, [str(value)]
    otherwise. *)
Definition block_body (v : pyval) : string :=
  match v with
  | PStrList items => py_join nl (map (fun item => "- " +++ item) items)
  | _ => py_str v
  end.

(** C10 (amended): the build fails with [ValueError] exactly when the role
    is missing or falsy; a truthy role that is not a string fails with
    [AttributeError]; for a non-empty string role the prompt is, joined by
    blank lines, ["You are "] + the stripped role with its first letter
    lowercased, then each of the instruction, output_constraints,
    style_or_tone and output_format blocks whose value is truthy, in that
    order, as its lead-in, a newline and its body. *)
Theorem system_prompt_shape (config : py_dict) :
  (build_system_prompt_from_config config = Err (ValueError "Missing required 'role' field.")
   <-> truthy (dict_get config "role") = false) /\
  (truthy (dict_get config "role") = true ->
   (forall r, dict_get config "role" <> PStr r) ->
   exists msg, build_system_prompt_from_config config = Err (AttributeError msg)) /\
  (forall r, dict_get config "role" = PStr r -> r <> "" ->
   build_system_prompt_from_config config =
     Ok (py_join (nl +++ nl)
           (("You are " +++ lowercase_first_char (py_strip r))
              :: concat (map (fun '(key, lead_in) =>
                                if truthy (dict_get config key)
                                then [lead_in +++ nl +++ block_body (dict_get config key)]
                                else []) optional_blocks)))).
Proof.
  unfold build_system_prompt_from_config.
  split; [| split].
  - destruct (truthy (dict_get config "role")); simpl; [| tauto].
    split; [| discriminate].
    destruct (dict_get config "role"); discriminate.
  - intros Ht Hn. rewrite Ht. simpl.
    destruct (dict_get config "role") as [| | |s|]; try (eexists; reflexivity).
    exfalso. exact (Hn s eq_refl).
  - intros r Hr Hne. rewrite Hr.
    assert (Ht : truthy (PStr r) = true)
      by (simpl; destruct (String.eqb_spec r ""); [contradiction | reflexivity]).
    rewrite Ht. cbn [negb concat map optional_blocks]. rewrite app_nil_r. reflexivity.
Qed.

Definition demo_prompt_config : py_dict :=
  [("role", PStr "Research assistant");
   ("output_constraints", PStrList ["Cite sources"; "Be brief"])].

Lemma system_prompt_shape_witness :
  dict_get demo_prompt_config "role" = PStr "Research assistant" /\
  build_system_prompt_from_config demo_prompt_config =
    Ok ("You are research assistant" +++ nl +++ nl +++ "Follow these important guidelines:"
        +++ nl +++ "- Cite sources" +++ nl +++ "- Be brief").
Proof.
  split; [reflexivity |].
  rewrite (proj2 (proj2 (system_prompt_shape demo_prompt_config)) "Research assistant"
             eq_refl ltac:(discriminate)).
  vm_compute. reflexivity.
Defined.

(** * Further properties of the code *)

(** ** [MemoryManager]: the history keeps whole pairs *)

Lemma skipn_turn_messages (k : nat) (pairs : list (string * string)) :
  skipn (2 * k) (turn_messages pairs) = turn_messages (skipn k pairs).
Proof.
  revert pairs; induction k as [|k IH]; intros [|[u a] pairs]; try reflexivity.
  replace (2 * S k) with (S (S (2 * k))) by lia.
  unfold turn_messages in *. simpl. apply IH.
Qed.

Lemma lastn_turn_messages (w : nat) (pairs : list (string * string)) :
  lastn (2 * w) (turn_messages pairs) = turn_messages (lastn w pairs).
Proof.
  unfold lastn. rewrite length_turn_messages.
  replace (2 * length pairs - 2 * w) with (2 * (length pairs - w)) by lia.
  apply skipn_turn_messages.
Qed.

Lemma lastn_short {A} (n : nat) (l : list A) : length l <= n -> lastn n l = l.
Proof. intros H. unfold lastn. replace (length l - n) with 0 by lia. reflexivity. Qed.

Lemma length_lastn {A} (n : nat) (l : list A) : length (lastn n l) <= n.
Proof. unfold lastn. rewrite length_skipn. lia. Qed.

Lemma turn_messages_snoc (pairs : list (string * string)) (u a : string) :
  turn_messages (pairs ++ [(u, a)]) = turn_messages pairs ++ [mkTurn "user" u; mkTurn "assistant" a].
Proof.
  unfold turn_messages. rewrite map_app, concat_app. simpl. reflexivity.
Qed.

Lemma trim_history_nil_iff (cnt : list turn -> nat) (limit : Z) (h : list turn) :
  trim_history cnt limit h = [] <-> h = [].
Proof.
  induction h as [|x r IH]; [tauto |].
  cbn [trim_history].
  destruct ((limit <? Z.of_nat (cnt (x :: r)))%Z && (2 <? length (x :: r))) eqn:E.
  - apply andb_true_iff in E as [_ E]. apply Nat.ltb_lt in E.
    destruct r as [|y r]; [cbn [length] in E; lia |].
    rewrite IH. split; discriminate.
  - split; discriminate.
Qed.

Lemma update_summary_state (enc : string -> option (string -> nat)) (l : llm)
    (tmpl : list template_piece) (mm : MemoryManager) :
  history (snd (update_summary enc l tmpl mm)) = [] /\
  maxlen (snd (update_summary enc l tmpl mm)) = maxlen mm /\
  token_limit (snd (update_summary enc l tmpl mm)) = token_limit mm /\
  (fst (update_summary enc l tmpl mm) = None <-> history mm = []).
Proof.
  assert (Hh' : forall b : bool, (if b then trim_history (history_tokens enc l) (token_limit mm) (history mm)
                           else history mm) = [] <-> history mm = []).
  { intros [|]; [apply trim_history_nil_iff | tauto]. }
  unfold update_summary. cbv zeta.
  specialize (Hh' (token_limit mm <? Z.of_nat (history_tokens enc l (history mm)))%Z).
  destruct (if (token_limit mm <? Z.of_nat (history_tokens enc l (history mm)))%Z
            then trim_history (history_tokens enc l) (token_limit mm) (history mm)
            else history mm) as [|t r].
  - cbn. split; [reflexivity | split; [reflexivity | split; [reflexivity |]]]. tauto.
  - cbn. split; [reflexivity | split; [reflexivity | split; [reflexivity |]]].
    split; [discriminate |]. intros E. apply Hh' in E. discriminate.
Qed.

(** The invariant: [maxlen] is [2*w] and the history is made of at most
    [w] whole (user, assistant) pairs. *)
Definition whole_pairs (w : nat) (mm : MemoryManager) : Prop :=
  maxlen mm = 2 * w /\
  exists pairs, history mm = turn_messages pairs /\ length pairs <= w.

Lemma memory_step_whole_pairs (w : nat) (mm : MemoryManager) (op : memory_op) :
  whole_pairs w mm -> whole_pairs w (memory_step mm op).
Proof.
  intros [Hm [pairs [Hh Hlen]]].
  destruct op as [u a| | |enc l tmpl|]; cbn [memory_step];
    try (split; [exact Hm | exists pairs; split; assumption]).
  - split; [exact Hm |].
    assert (Hlast : history mm = lastn (maxlen mm) (turn_messages pairs)).
    { rewrite Hh, lastn_short; [reflexivity |]. rewrite length_turn_messages. lia. }
    pose proof (add_turn_lastn mm u a _ Hlast) as E.
    rewrite <- turn_messages_snoc, Hm, lastn_turn_messages in E.
    exists (lastn w (pairs ++ [(u, a)])). split; [exact E | apply length_lastn].
  - destruct (update_summary_state enc l tmpl mm) as [E1 [E2 _]].
    split; [rewrite E2; exact Hm |]. exists []. split; [exact E1 | simpl; lia].
Qed.

Lemma run_memory_whole_pairs (w : nat) (ops : list memory_op) :
  forall mm, whole_pairs w mm -> whole_pairs w (run_memory mm ops).
Proof.
  induction ops as [|op ops IH]; intros mm H; [exact H |].
  apply IH, memory_step_whole_pairs, H.
Qed.

(** X1 *)
(** X1: for a manager built with window size [w], after any sequence of
    calls ([add_turn], [update_summary], [get_recent_history],
    [get_combined_context], [to_dict]) none of which raises (the LLM call
    of [update_summary] returns), the deque bound is still [2*w] and the
    history consists of at most [w] whole pairs, each a user message
    followed by its assistant message.  (When the LLM call raises after
    trimming, see X2, the trimmed history can start with an assistant
    message.) *)
Theorem memory_history_whole_pairs (w limit : Z) (mm : MemoryManager) :
  memory_init w limit = Ok mm ->
  forall ops,
    maxlen (run_memory mm ops) = 2 * Z.to_nat w /\
    exists pairs, history (run_memory mm ops) = turn_messages pairs /\
                  length pairs <= Z.to_nat w.
Proof.
  unfold memory_init. destruct (Z.ltb_spec (w * 2) 0) as [_ | Hw]; [discriminate |].
  intros E. injection E as <-. intros ops.
  apply run_memory_whole_pairs.
  split; [cbn; lia |]. exists []. split; [reflexivity | simpl; lia].
Qed.

Lemma memory_history_whole_pairs_witness :
  memory_init 1 10 = Ok (mkMemory [] 2 "" 10) /\
  maxlen (run_memory (mkMemory [] 2 "" 10) [OpAddTurn "a" "b"; OpAddTurn "c" "d"])
    = 2 * Z.to_nat 1.
Proof.
  split; [reflexivity |].
  exact (proj1 (memory_history_whole_pairs 1 10 (mkMemory [] 2 "" 10) eq_refl
                  [OpAddTurn "a" "b"; OpAddTurn "c" "d"])).
Defined.


(** X3 *)
(** X3: after an [update_summary] call that produced the fragment [s],
    [get_combined_context] shows the previous summary followed by a
    newline, [s] and a newline under "Conversation Summary:", and an empty
    "Recent Conversation:" section. *)
Theorem combined_context_after_summary (enc : string -> option (string -> nat)) (l : llm)
    (tmpl : list template_piece) (mm : MemoryManager) (s : string) :
  fst (update_summary enc l tmpl mm) = Some s ->
  get_combined_context (snd (update_summary enc l tmpl mm)) =
    "Conversation Summary:" +++ nl +++ summary mm +++ nl +++ s +++ nl
      +++ nl +++ nl +++ "Recent Conversation:" +++ nl.
Proof.
  intros Hs.
  destruct (update_summary_shape enc l tmpl mm) as [[E _] | [ns [E [Esum Ehist]]]].
  - rewrite E in Hs. discriminate.
  - rewrite E in Hs. injection Hs as ->.
    unfold get_combined_context. rewrite Esum, Ehist.
    assert (Hne : String.eqb (summary mm +++ nl +++ s +++ nl) "" = false)
      by (destruct (summary mm); reflexivity).
    rewrite Hne. unfold render_history, messages_to_string. cbn [map messages_to_string_go].
    unfold py_join. cbn [String.concat]. rewrite str_append_empty.
    rewrite !str_append_assoc. reflexivity.
Qed.

Definition demo_summary_memory : MemoryManager :=
  mkMemory [mkTurn "user" "hi"; mkTurn "assistant" "hello"] 4 "" 1000.

Definition demo_summarizer : llm := mkLLM None (fun _ => " Greeting. ").

Lemma combined_context_after_summary_witness :
  fst (update_summary (fun _ => None) demo_summarizer [TChat] demo_summary_memory)
    = Some "Greeting." /\
  get_combined_context (snd (update_summary (fun _ => None) demo_summarizer [TChat]
                                demo_summary_memory)) =
    "Conversation Summary:" +++ nl +++ "" +++ nl +++ "Greeting." +++ nl
      +++ nl +++ nl +++ "Recent Conversation:" +++ nl.
Proof.
  assert (H : fst (update_summary (fun _ => None) demo_summarizer [TChat] demo_summary_memory)
                = Some "Greeting.") by (vm_compute; reflexivity).
  split; [exact H |].
  exact (combined_context_after_summary (fun _ => None) demo_summarizer [TChat]
           demo_summary_memory "Greeting." H).
Defined.

(** ** [messages_to_string] on a LangChain conversation *)

(** A conversation as LangChain messages: a [HumanMessage] then an
    [AIMessage] for each (question, answer) pair. *)
Definition chat_messages (pairs : list (string * string)) : list message :=
  concat (map (fun '(q, a) => [HumanMessage q; AIMessage a]) pairs).

(** The lines for the pairs numbered from 1: a separator before every
    question but the first, then the numbered question and the answer. *)
Definition transcript_lines (pairs : list (string * string)) : list string :=
  concat (map (fun '(k, (q, a)) =>
                 (if k =? 1 then [] else [separator_line])
                   ++ ["USER Q" +++ str_nat k +++ ": " +++ q; "ASSISTANT: " +++ a])
              (enumerate_from 1 pairs)).

Lemma messages_to_string_go_pairs (pairs : list (string * string)) :
  forall j,
  messages_to_string_go (2 * j) j (chat_messages pairs) =
  concat (map (fun '(k, (q, a)) =>
                 (if k =? 1 then [] else [separator_line])
                   ++ ["USER Q" +++ str_nat k +++ ": " +++ q; "ASSISTANT: " +++ a])
              (enumerate_from (S j) pairs)).
Proof.
  induction pairs as [|[q a] pairs IH]; intros j; [reflexivity |].
  unfold chat_messages in *. cbn [map concat Datatypes.app enumerate_from].
  cbn [messages_to_string_go].
  replace (S (S (2 * j))) with (2 * S j) by lia. rewrite IH.
  destruct j as [|j]; reflexivity.
Qed.

(** X4 *)
(** X4: rendering a conversation of (question, answer) pairs as LangChain
    messages numbers the questions "USER Q1", "USER Q2", ... in order,
    puts the separator line before every question except the first, and
    joins all lines with blank lines. *)
Theorem messages_to_string_pairs (pairs : list (string * string)) :
  messages_to_string (chat_messages pairs) = py_join (nl +++ nl) (transcript_lines pairs).
Proof.
  unfold messages_to_string, transcript_lines.
  exact (f_equal (py_join (nl +++ nl)) (messages_to_string_go_pairs pairs 0)).
Qed.

(** ** [count_tokens] without a tokenizer *)

(** A word: no character for which [str.isspace] holds. *)
Definition no_py_space (w : string) : bool :=
  forallb (fun c => negb (is_py_space c)) (list_ascii_of_string w).

Lemma split_go_word (w s : string) :
  no_py_space w = true ->
  split_go (w +++ s) = (w +++ fst (split_go s), snd (split_go s)).
Proof.
  induction w as [|c w IH]; intros Hw.
  - simpl. destruct (split_go s); reflexivity.
  - cbn [no_py_space list_ascii_of_string forallb] in Hw.
    apply andb_true_iff in Hw as [Hc Hw]. apply negb_true_iff in Hc.
    cbn [String.append split_go]. rewrite (IH Hw), Hc. reflexivity.
Qed.

Lemma split_go_join (ws : list string) :
  forall w, w <> "" -> no_py_space w = true ->
  Forall (fun x => x <> "" /\ no_py_space x = true) ws ->
  split_go (py_join " " (w :: ws)) = (w, ws).
Proof.
  induction ws as [|w2 ws IH]; intros w Hne Hw Hall.
  - unfold py_join. cbn [String.concat].
    pose proof (split_go_word w "" Hw) as E. rewrite str_append_empty in E.
    rewrite E. cbn. rewrite str_append_empty. reflexivity.
  - inversion Hall as [|x xs [Hne2 Hw2] Hrest]; subst.
    unfold py_join in *. change (String.concat " " (w :: w2 :: ws))
      with (w +++ " " +++ String.concat " " (w2 :: ws)).
    rewrite (split_go_word w _ Hw).
    cbn [String.append split_go]. rewrite (IH w2 Hne2 Hw2 Hrest).
    destruct (String.eqb_spec w2 "") as [E | _]; [contradiction |].
    cbn. rewrite str_append_empty. reflexivity.
Qed.

(** X5 *)
(** X5: [str.split()] recovers the words of a text made of non-empty,
    whitespace-free words joined by single spaces, so without a tokenizer
    [count_tokens] estimates such a text of [n] words as [int(n * 1.3)]
    tokens. *)
Theorem count_tokens_fallback_words (ws : list string) :
  Forall (fun w => w <> "" /\ no_py_space w = true) ws ->
  py_split (py_join " " ws) = ws /\
  count_tokens None (py_join " " ws) = 13 * length ws / 10.
Proof.
  intros Hall.
  assert (E : py_split (py_join " " ws) = ws).
  { destruct ws as [|w ws]; [reflexivity |].
    inversion Hall as [|x xs [Hne Hw] Hrest]; subst.
    unfold py_split. rewrite (split_go_join ws w Hne Hw Hrest).
    destruct (String.eqb_spec w "") as [E | _]; [contradiction | reflexivity]. }
  split; [exact E |]. unfold count_tokens. rewrite E. reflexivity.
Qed.

Lemma count_tokens_fallback_words_witness :
  Forall (fun w => w <> "" /\ no_py_space w = true) ["What"; "is"; "RAG?"] /\
  count_tokens None (py_join " " ["What"; "is"; "RAG?"]) = 3.
Proof.
  assert (H : Forall (fun w => w <> "" /\ no_py_space w = true) ["What"; "is"; "RAG?"]).
  { repeat constructor; discriminate. }
  split; [exact H |].
  exact (proj2 (count_tokens_fallback_words ["What"; "is"; "RAG?"] H)).
Defined.

(** ** [RAGPipeline.query]: when it raises *)

Lemma first_of_error {A} (f : field A) :
  (exists e, first_of f = Err e) <-> field_usable f = false.
Proof.
  destruct f as [| |[|x xs]]; simpl; split; intros H;
    try discriminate; try solve [eauto]; destruct H as [e E]; discriminate.
Qed.

Lemma first_of_error_kind {A} (f : field A) (e : py_error) :
  first_of f = Err e ->
  e = TypeError "'NoneType' object is not subscriptable" \/
  e = IndexError "list index out of range".
Proof. destruct f as [| |[|x xs]]; simpl; intros E; try discriminate; injection E; auto. Qed.

(** X6 *)
(** X6: [query] raises exactly when one of the keys documents, metadatas
    and distances of the store's answer holds [None] or an empty list;
    the exception is then a [TypeError] (for [None]) or an [IndexError]
    (for the empty list). *)
Theorem query_error_iff (store : Type)
    (query_by_vector : store -> list float -> Z -> query_response)
    (emb : embedder) (st : store) (query_text : string) (top_k : Z) :
  ((exists e, query store query_by_vector emb st query_text top_k = Err e) <->
   field_usable (r_documents (query_by_vector st (embed_query emb query_text) top_k)) = false \/
   field_usable (r_metadatas (query_by_vector st (embed_query emb query_text) top_k)) = false \/
   field_usable (r_distances (query_by_vector st (embed_query emb query_text) top_k)) = false) /\
  (forall e, query store query_by_vector emb st query_text top_k = Err e ->
   e = TypeError "'NoneType' object is not subscriptable" \/
   e = IndexError "list index out of range").
Proof.
  unfold query. cbv zeta.
  set (r := query_by_vector st (embed_query emb query_text) top_k).
  rewrite <- !first_of_error.
  destruct (first_of (r_documents r)) as [d|e1] eqn:E1;
  destruct (first_of (r_metadatas r)) as [m|e2] eqn:E2;
  destruct (first_of (r_distances r)) as [x|e3] eqn:E3;
  (split; [split; [intros [e He]; try discriminate; eauto 6
                  | intros [[e He] | [[e He] | [e He]]]; try discriminate; eauto]
          | intros e He; try discriminate; injection He as <-;
            eauto using first_of_error_kind]).
Qed.

(** ** [RAGPipeline.ingest_publications]: when chunking raises *)

(** [pub.get("publication_description", "")] is a [str]. *)
Definition description_is_str (pub : py_dict) : bool :=
  match dict_get_default pub "publication_description" (PStr "") with
  | PStr _ => true
  | _ => false
  end.

Lemma chunks_of_publication_error (split_text : string -> list string) (pub : py_dict) :
  (forall e, chunks_of_publication split_text pub = Err e -> exists msg, e = TypeError msg) /\
  ((exists e, chunks_of_publication split_text pub = Err e) <-> description_is_str pub = false).
Proof.
  unfold chunks_of_publication, description_is_str.
  destruct (dict_get_default pub "publication_description" (PStr "")); cbv zeta;
    (split; [intros e E; try discriminate; injection E as <-; eauto |]);
    split; intros H; try discriminate; try solve [eauto]; destruct H as [e E]; discriminate.
Qed.

Lemma split_publications_error (split_text : string -> list string) (pubs : list py_dict) :
  (forall e, split_publications split_text pubs = Err e -> exists msg, e = TypeError msg) /\
  ((exists e, split_publications split_text pubs = Err e) <->
   existsb (fun p => negb (description_is_str p)) pubs = true).
Proof.
  induction pubs as [|p ps [IH1 IH2]]; simpl.
  - split; [discriminate |]. split; [intros [e E]; discriminate | discriminate].
  - destruct (chunks_of_publication_error split_text p) as [H1 H2].
    destruct (chunks_of_publication split_text p) as [cs|e] eqn:Ep.
    + assert (Hp : description_is_str p = true).
      { destruct (description_is_str p); [reflexivity |].
        destruct (proj2 H2 eq_refl) as [e E]. discriminate. }
      rewrite Hp. simpl.
      destruct (split_publications split_text ps) as [all|e] eqn:Er.
      * split; [discriminate |]. rewrite <- IH2. split; intros [e E]; discriminate.
      * split; [exact IH1 |]. rewrite <- IH2. split; intros _; eauto.
    + assert (Hp : description_is_str p = false) by (apply H2; eauto).
      rewrite Hp. simpl. split; [exact H1 | split; intros _; eauto].
Qed.

(** X7 *)
(** X7: chunking ([Chunker.split_publications]) raises exactly when some
    publication has a [publication_description] that is present but not a
    [str] (for instance [None]), and the exception is a [TypeError] from
    the text splitter; [ingest_publications] then raises it before
    embedding or storing anything. *)
Theorem ingest_publications_error (store : Type)
    (add_chunks : store -> list pyval -> list string -> list py_dict -> list (list float) -> store)
    (split_text : string -> list string) (emb : embedder) (publications : list py_dict)
    (st : store) :
  ((exists e, split_publications split_text publications = Err e) <->
   existsb (fun p => negb (description_is_str p)) publications = true) /\
  (forall e, split_publications split_text publications = Err e ->
   (exists msg, e = TypeError msg) /\
   ingest_publications store add_chunks split_text emb publications st = Err e).
Proof.
  destruct (split_publications_error split_text publications) as [H1 H2].
  split; [exact H2 |].
  intros e E. split; [exact (H1 e E) |].
  unfold ingest_publications. rewrite E.
  destruct publications as [|p ps]; [discriminate | reflexivity].
Qed.

(** ** [get_llm] *)

Lemma in_available_models (model : string) :
  existsb (String.eqb model) available_models = true <-> In model available_models.
Proof.
  rewrite existsb_exists. split.
  - intros [x [Hx E]]. apply String.eqb_eq in E. subst. exact Hx.
  - intros H. exists model. split; [exact H | apply String.eqb_refl].
Qed.

(** X8 *)
(** X8: [get_llm] first asserts that GOOGLE_API_KEY is set and non-empty
    (whatever the model); with the key set, a model outside the three
    available ones raises [AttributeError] (the error message calls
    [.keys()] on a list) rather than the documented [ValueError]; the two
    Gemini models give the outcome of [ChatGoogleGenerativeAI(model=model,
    temperature=0.0, api_key=GOOGLE_API_KEY)] and "llama3-8b-8192" that of
    [ChatGroq(model_name="llama3-8b-8192", temperature=0.0,
    api_key=GROQ_API_KEY)], whatever that constructor returns or raises.
    It never returns [None]. *)
Theorem get_llm_outcomes {C : Type} (construct : chat_client -> startup C)
    (env : string -> option string) (model : string) :
  ((env "GOOGLE_API_KEY" = None \/ env "GOOGLE_API_KEY" = Some "") ->
   get_llm construct env model =
     Failed (AssertionError "'api_key' has not been loaded or is not set in the .env file.")) /\
  (forall k, env "GOOGLE_API_KEY" = Some k -> k <> "" ->
   (~ In model available_models ->
    get_llm construct env model =
      Failed (Raised (AttributeError "'list' object has no attribute 'keys'"))) /\
   ((model = "gemini-1.5-flash" \/ model = "gemini-1.5-pro") ->
    get_llm construct env model =
      return_client (construct (ChatGoogleGenerativeAI model 0.0%float (Some k)))) /\
   (model = "llama3-8b-8192" ->
    get_llm construct env model =
      return_client (construct (ChatGroq "llama3-8b-8192" 0.0%float (env "GROQ_API_KEY"))))) /\
  get_llm construct env model <> Started None.
Proof.
  assert (Hret : forall r : startup C, return_client r <> Started None)
    by (intros [c|e]; discriminate).
  unfold get_llm, load_env.
  destruct (env "GOOGLE_API_KEY") as [k|] eqn:Ek.
  - destruct (String.eqb_spec k "") as [-> | Hk].
    + split; [intros _; reflexivity |].
      split; [intros k' E Hne; injection E as <-; contradiction | discriminate].
    + cbn [negb]. split; [intros [E | E]; [discriminate | injection E as E; contradiction] |].
      destruct (existsb (String.eqb model) available_models) eqn:Hin.
      * apply in_available_models in Hin.
        assert (Hcases : model = "gemini-1.5-flash" \/ model = "gemini-1.5-pro" \/
                         model = "llama3-8b-8192")
          by (destruct Hin as [E | [E | [E | []]]]; auto).
        split.
        -- intros k' E _. injection E as <-.
           split; [intros Hn; contradiction |].
           split; intros Hm; destruct Hm as [-> | ->] || subst model; reflexivity.
        -- destruct Hcases as [-> | [-> | ->]]; cbn; apply Hret.
      * assert (Hn : ~ In model available_models)
          by (rewrite <- in_available_models, Hin; discriminate).
        split.
        -- intros k' E _. injection E as <-.
           split; [reflexivity |].
           split; intros Hm; exfalso; apply Hn;
             [destruct Hm as [-> | ->] | subst model]; cbn; tauto.
        -- discriminate.
  - split; [intros _; reflexivity |].
    split; [intros k' E; discriminate | discriminate].
Qed.

(** ** [run_cli] *)

(** The queries [run_cli] passes to [chatbot.ask] for input lines that
    contain no exit command: the stripped non-empty lines, in order. *)
Definition cli_queries (lines : list string) : list string :=
  filter (fun u => negb (String.eqb u "")) (map py_strip lines).

Definition no_exit_line (lines : list string) : bool :=
  forallb (fun line => negb (is_exit_command (py_strip line))) lines.

Lemma run_cli_loop_exit (ask_fn : string -> result ask_result) (x : string)
    (post pre : list string) :
  forall fuel out asked,
  no_exit_line pre = true ->
  is_exit_command (py_strip x) = true ->
  length pre < fuel ->
  exists out',
    run_cli_loop ask_fn fuel (pre ++ x :: post) out asked =
      (out' ++ ["You: "; nl +++ "Exiting chat. Goodbye!" +++ nl +++ nl],
       asked ++ cli_queries pre, true).
Proof.
  induction pre as [|line pre IH]; intros fuel out asked Hpre Hx Hfuel;
    destruct fuel as [|fuel]; cbn [length] in Hfuel; try lia.
  - cbn [run_cli_loop Datatypes.app]. cbv zeta. rewrite Hx.
    exists out. rewrite app_nil_r, <- app_assoc. reflexivity.
  - cbn [no_exit_line forallb] in Hpre. apply andb_true_iff in Hpre as [Hl Hpre].
    apply negb_true_iff in Hl.
    cbn [run_cli_loop Datatypes.app]. cbv zeta. rewrite Hl.
    unfold cli_queries. cbn [map filter].
    destruct (String.eqb (py_strip line) "") eqn:He; cbn [negb].
    + apply (IH fuel); [exact Hpre | exact Hx | lia].
    + replace (asked ++ py_strip line :: filter (fun u => negb (String.eqb u "")) (map py_strip pre))
        with ((asked ++ [py_strip line]) ++ cli_queries pre)
        by (rewrite <- app_assoc; reflexivity).
      apply (IH fuel); [exact Hpre | exact Hx | lia].
Qed.

(** X10 *)
(** X10: [run_cli] leaves its loop at the first input line that, once
    stripped and lowercased, is "exit" or "quit"; by then it has passed
    [chatbot.ask] every earlier non-empty stripped line, in order (empty
    lines are skipped, and a query whose [ask] raised does not end the
    session), and its last output is the prompt and the goodbye line. *)
Theorem run_cli_stops_at_exit (ask_fn : string -> result ask_result) (fuel : nat)
    (pre : list string) (x : string) (post : list string) :
  no_exit_line pre = true ->
  is_exit_command (py_strip x) = true ->
  length pre < fuel ->
  exists out,
    run_cli ask_fn fuel (pre ++ x :: post) =
      (out ++ ["You: "; nl +++ "Exiting chat. Goodbye!" +++ nl +++ nl], cli_queries pre, true).
Proof.
  intros Hpre Hx Hfuel. unfold run_cli.
  exact (run_cli_loop_exit ask_fn x post pre fuel _ [] Hpre Hx Hfuel).
Qed.

Definition demo_cli_ask (q : string) : result ask_result :=
  if String.eqb q "fail" then Err (ValueError "boom") else Ok (mkAskResult q " ok " "t" "m").

Lemma run_cli_stops_at_exit_witness :
  no_exit_line ["What is RAG?"; "   "; "fail"] = true /\
  is_exit_command (py_strip "  QUIT ") = true /\
  exists out,
    run_cli demo_cli_ask 4 (["What is RAG?"; "   "; "fail"] ++ "  QUIT " :: ["later"]) =
      (out ++ ["You: "; nl +++ "Exiting chat. Goodbye!" +++ nl +++ nl],
       cli_queries ["What is RAG?"; "   "; "fail"], true).
Proof.
  assert (H1 : no_exit_line ["What is RAG?"; "   "; "fail"] = true) by (vm_compute; reflexivity).
  assert (H2 : is_exit_command (py_strip "  QUIT ") = true) by (vm_compute; reflexivity).
  split; [exact H1 | split; [exact H2 |]].
  exact (run_cli_stops_at_exit demo_cli_ask 4 _ _ _ H1 H2 ltac:(cbn; lia)).
Defined.

Definition eof_error_line : string := nl +++ "Error: EOF when reading a line" +++ nl +++ nl.

Lemma run_cli_loop_eof (ask_fn : string -> result ask_result) (n : nat) :
  forall out asked,
  run_cli_loop ask_fn n [] out asked =
    (out ++ concat (repeat ["You: "; eof_error_line] n), asked, false).
Proof.
  induction n as [|n IH]; intros out asked; cbn [run_cli_loop repeat concat].
  - rewrite app_nil_r. reflexivity.
  - rewrite IH. rewrite <- !app_assoc. reflexivity.
Qed.

Lemma run_cli_loop_no_exit (ask_fn : string -> result ask_result) (n : nat)
    (lines : list string) :
  forall out asked,
  no_exit_line lines = true ->
  exists out',
    run_cli_loop ask_fn (length lines + n) lines out asked =
      (out' ++ concat (repeat ["You: "; eof_error_line] n), asked ++ cli_queries lines, false).
Proof.
  induction lines as [|line lines IH]; intros out asked Hl.
  - exists out. cbn [length Nat.add]. rewrite run_cli_loop_eof, app_nil_r. reflexivity.
  - cbn [no_exit_line forallb] in Hl. apply andb_true_iff in Hl as [Hx Hl].
    apply negb_true_iff in Hx.
    cbn [length Nat.add run_cli_loop]. cbv zeta. rewrite Hx.
    unfold cli_queries. cbn [map filter].
    destruct (String.eqb (py_strip line) "") eqn:He; cbn [negb].
    + apply IH, Hl.
    + replace (asked ++ py_strip line :: filter (fun u => negb (String.eqb u "")) (map py_strip lines))
        with ((asked ++ [py_strip line]) ++ cli_queries lines)
        by (rewrite <- app_assoc; reflexivity).
      apply IH, Hl.
Qed.

Lemma run_cli_loop_never_breaks (ask_fn : string -> result ask_result) (fuel : nat) :
  forall lines out asked,
  no_exit_line lines = true ->
  snd (run_cli_loop ask_fn fuel lines out asked) = false.
Proof.
  induction fuel as [|fuel IH]; intros lines out asked Hl; [reflexivity |].
  destruct lines as [|line lines].
  - cbn [run_cli_loop]. apply IH. reflexivity.
  - cbn [no_exit_line forallb] in Hl. apply andb_true_iff in Hl as [Hx Hl].
    apply negb_true_iff in Hx.
    cbn [run_cli_loop]. cbv zeta. rewrite Hx.
    destruct (String.eqb (py_strip line) ""); apply IH, Hl.
Qed.

(** X11 *)
(** X11: when no input line is an exit command, [run_cli] never leaves its
    loop, however many iterations run: it asks every stripped non-empty
    line in order, and once the input is exhausted each further iteration
    prints the prompt and the [EOFError] message, forever. *)
Theorem run_cli_no_exit (ask_fn : string -> result ask_result) (lines : list string) :
  no_exit_line lines = true ->
  (forall fuel, snd (run_cli ask_fn fuel lines) = false) /\
  (forall n, exists out,
     run_cli ask_fn (length lines + n) lines =
       (out ++ concat (repeat ["You: "; eof_error_line] n), cli_queries lines, false)).
Proof.
  intros Hl. unfold run_cli. split.
  - intros fuel. apply run_cli_loop_never_breaks, Hl.
  - intros n. exact (run_cli_loop_no_exit ask_fn n lines _ [] Hl).
Qed.

Lemma run_cli_no_exit_witness :
  no_exit_line ["hello"; ""] = true /\
  forall fuel, snd (run_cli demo_cli_ask fuel ["hello"; ""]) = false.
Proof.
  assert (H : no_exit_line ["hello"; ""] = true) by (vm_compute; reflexivity).
  split; [exact H | exact (proj1 (run_cli_no_exit demo_cli_ask ["hello"; ""] H))].
Defined.
